(** * A shallow embedding of [main.py] (Copilot FastAPI demo)

    The request handlers of [src/main.py] are embedded as computations of a
    small state-and-exception monad over an explicit [world]: the local
    filesystem, the clock and the host readings that the handlers consult.

    Modelling conventions.
    - A Python [str] is a [string] whose characters are read as the code
      points 0..255 (Latin-1); code points above 255 are not represented.
      The text of a file is its decoded text.
    - A Python [float] is a binary64 [float] of the kernel; a Python [int]
      is a [Z].  The one float that is rounded for display,
      [round(total_space / (1024*1024), 2)], is computed as binary64
      computes it (the quotient rounded to 53 bits, then to two decimals)
      and kept as a number of hundredths, which stands for the float
      nearest to it.  A quotient too large for a float is not
      represented.
    - A path is identified with its spelling: no normalisation of [.], [..]
      or doubled separators.  POSIX separators are used.  A [world] holds
      directories and regular files; symbolic links are added to it in
      [Links], for the two folder handlers.  The order of a directory
      listing is the directory's own.  The filesystem does not change
      under a running handler except by the handler's own calls, and the
      clock stands still while it runs.
    - A JSON response is a [json] tree; a [dict] literal keeps the order of
      its keys.
    - A handler takes its query parameters as arguments; parsing them and
      filling in their defaults is the framework's part. *)

(** What lies outside the module ([pywin32], the token service, the
    directory API, the formatting of floats) is a parameter of the handler
    that uses it. *)

From Stdlib Require Import ZArith QArith Floats Ascii String DecimalString.
From stdpp Require Import gmap strings list fin_maps.

Open Scope Z_scope.
Set Warnings "-register-all".

(* ===================================================================== *)
(** ** Python strings *)
(* ===================================================================== *)

Module PyStr.

(** [c.lower()] on one Latin-1 code point: [A-Z] and the upper-case letters
    U+00C0..U+00DE (U+00D7, the multiplication sign, apart) move up by 32. *)
Definition lower_char (c : ascii) : ascii :=
  let n := nat_of_ascii c in
  if ((65 <=? n)%nat && (n <=? 90)%nat)
     || ((192 <=? n)%nat && (n <=? 222)%nat && negb (n =? 215)%nat)
  then ascii_of_nat (n + 32) else c.

(** [s.lower()] *)
Fixpoint lower (s : string) : string :=
  match s with
  | EmptyString => EmptyString
  | String c r => String (lower_char c) (lower r)
  end.

(** [pat] matches at the head of [s], letters compared without case. *)
Fixpoint match_here (pat s : string) : bool :=
  match pat, s with
  | EmptyString, _ => true
  | String _ _, EmptyString => false
  | String p pat', String c s' =>
      bool_decide (lower_char p = lower_char c) && match_here pat' s'
  end.

(** [re.search(pat, s, re.IGNORECASE) is not None] for a pattern made of
    literal characters: some position of [s] starts a match. *)
Fixpoint search_ignorecase (pat s : string) : bool :=
  match_here pat s ||
  match s with
  | EmptyString => false
  | String _ s' => search_ignorecase pat s'
  end.

(** [str(n)] for an [int]. *)
Definition of_int (n : Z) : string := NilZero.string_of_int (Z.to_int n).

Definition starts_with_sep (s : string) : bool :=
  match s with
  | String "/" _ => true
  | _ => false
  end.

Fixpoint ends_with_sep (s : string) : bool :=
  match s with
  | EmptyString => false
  | String c EmptyString => bool_decide (c = "/"%char)
  | String _ r => ends_with_sep r
  end.

Fixpoint has_sep (s : string) : bool :=
  match s with
  | EmptyString => false
  | String c r => bool_decide (c = "/"%char) || has_sep r
  end.

(** [s[len(p):]] when [s.startswith(p)]. *)
Fixpoint strip_prefix (p s : string) : option string :=
  match p, s with
  | EmptyString, _ => Some s
  | String a p', String b s' =>
      if bool_decide (a = b) then strip_prefix p' s' else None
  | String _ _, EmptyString => None
  end.

(** What iterating over a text-mode file yields, with universal newlines: a
    line ends at ["\n"], at ["\r\n"] or at a lone ["\r"], each handed over as
    ["\n"]; a last line without a terminator is a line too. [cur] is the line
    read so far, in reverse. *)
Fixpoint lines_from (cur : list ascii) (s : string) : list string :=
  match s with
  | EmptyString =>
      match cur with
      | [] => []
      | _ => [string_of_list_ascii (rev cur)]
      end
  | String c r =>
      if bool_decide (c = "010"%char) then
        string_of_list_ascii (rev ("010"%char :: cur)) :: lines_from [] r
      else if bool_decide (c = "013"%char) then
        string_of_list_ascii (rev ("010"%char :: cur)) ::
        match r with
        | String "010" r' => lines_from [] r'
        | _ => lines_from [] r
        end
      else lines_from (c :: cur) r
  end.

Definition text_lines (s : string) : list string := lines_from [] s.

(** [c in s] for one character. *)
Fixpoint has_char (c : ascii) (s : string) : bool :=
  match s with
  | EmptyString => false
  | String d r => bool_decide (d = c) || has_char c r
  end.

(** The quote that [repr] puts around [s]: the double quote when [s] holds
    a single quote and no double quote, the single quote otherwise. *)
Definition repr_quote (s : string) : ascii :=
  if has_char "039"%char s && negb (has_char "034"%char s)
  then "034"%char else "039"%char.

(** [c.isprintable()] on one Latin-1 code point: the C0 and C1 controls,
    DEL, the no-break space and the soft hyphen are not. *)
Definition printable (c : ascii) : bool :=
  let n := nat_of_ascii c in
  (32 <=? n)%nat && negb (n =? 127)%nat
  && negb ((128 <=? n)%nat && (n <=? 160)%nat) && negb (n =? 173)%nat.

Definition hex_digit (n : nat) : ascii :=
  if (n <? 10)%nat then ascii_of_nat (48 + n) else ascii_of_nat (87 + n).

(** One character inside [repr(s)], [q] being the surrounding quote. *)
Definition repr_char (q c : ascii) : string :=
  if bool_decide (c = q) || bool_decide (c = "092"%char)
  then String "092" (String c EmptyString)
  else if bool_decide (c = "009"%char) then String "092" "t"
  else if bool_decide (c = "010"%char) then String "092" "n"
  else if bool_decide (c = "013"%char) then String "092" "r"
  else if printable c then String c EmptyString
  else String "092"
         (String "x"
            (String (hex_digit (nat_of_ascii c / 16))
               (String (hex_digit (nat_of_ascii c mod 16)) EmptyString))).

Fixpoint repr_body (q : ascii) (s : string) : string :=
  match s with
  | EmptyString => EmptyString
  | String c r => (repr_char q c ++ repr_body q r)%string
  end.

(** [repr(s)] *)
Definition repr (s : string) : string :=
  let q := repr_quote s in
  String q (repr_body q s ++ String q EmptyString)%string.

End PyStr.

(* ===================================================================== *)
(** ** Python floats against Python ints *)
(* ===================================================================== *)

Module PyFloat.

(** The exact order between a float and an integer, as Python's mixed
    comparisons decide it; [None] when the float is a NaN. *)
Definition compare_int (x : float) (n : Z) : option comparison :=
  match Prim2SF x with
  | S754_nan => None
  | S754_infinity s => Some (if s then Lt else Gt)
  | S754_zero _ => Some (0 ?= n)
  | S754_finite s m e =>
      let v := if s then Z.neg m else Z.pos m in
      Some (if 0 <=? e then v * 2 ^ e ?= n else v ?= n * 2 ^ (- e))
  end.

(** [x < n] *)
Definition lt_int (x : float) (n : Z) : bool :=
  match compare_int x n with
  | Some Lt => true
  | _ => false
  end.

(** [x > n] *)
Definition gt_int (x : float) (n : Z) : bool :=
  match compare_int x n with
  | Some Gt => true
  | _ => false
  end.

(** [x >= n] *)
Definition ge_int (x : float) (n : Z) : bool :=
  match compare_int x n with
  | Some Gt | Some Eq => true
  | _ => false
  end.

End PyFloat.

(* ===================================================================== *)
(** ** JSON responses *)
(* ===================================================================== *)

Inductive json : Type :=
  | JInt (n : Z)
  | JNum (q : Q)
  | JStr (s : string)
  | JArr (items : list json)
  | JObj (fields : list (string * json)).

(** [obj.get(k)] on a response. *)
Fixpoint assoc (k : string) (fields : list (string * json)) : option json :=
  match fields with
  | [] => None
  | (k', v) :: rest => if bool_decide (k' = k) then Some v else assoc k rest
  end.

Definition field (k : string) (j : json) : option json :=
  match j with
  | JObj fields => assoc k fields
  | _ => None
  end.

Definition items_of (j : json) : list json :=
  match j with
  | JArr l => l
  | _ => []
  end.

(* ===================================================================== *)
(** ** The world the handlers run in *)
(* ===================================================================== *)

(** A regular file as the handlers see it: [os.path.getmtime],
    [os.path.getsize], the text that [open(..., "r", errors="ignore")] reads,
    and the message of the exception that [os.remove] raises on it, if it
    raises one (a read-only directory, a file in use, ...). *)
Record file : Type := File {
  st_mtime : float;
  st_size : Z;
  content : string;
  remove_error : option string
}.

(** A directory as the handlers see it: its own modification time and
    size, the order in which [os.listdir] hands its names over (the names
    of [d_order] first, in that order; the filesystem is free in it), and
    the message of the exception that [os.listdir] raises on it, if it
    raises one (no permission to read the directory). *)
Record dir : Type := MkDir {
  d_mtime : float;
  d_size : Z;
  d_order : list string;
  d_list_error : option string
}.

(** A path names a directory or a regular file that the process may
    read.  There are no symbolic links here; [Links], further down, adds
    them. *)
Inductive node : Type :=
  | Dir (d : dir)
  | Reg (f : file).

(** [p] is a directory that the process may list. *)
Definition is_dir (m : gmap string node) (p : string) : bool :=
  match m !! p with
  | Some (Dir d) =>
      match d_list_error d with
      | None => true
      | Some _ => false
      end
  | _ => false
  end.

Definition is_reg (m : gmap string node) (p : string) : bool :=
  match m !! p with
  | Some (Reg _) => true
  | _ => false
  end.

(** [shutil.disk_usage(path)] *)
Record disk_usage : Type := DiskUsage {
  du_total : Z;
  du_used : Z;
  du_free : Z
}.

Record world : Type := World {
  nodes : gmap string node;              (* the filesystem, by path *)
  clock : float;                         (* time.time() *)
  platform_system : string;              (* platform.system() *)
  cpu_percent : float;                   (* psutil.cpu_percent(...) *)
  virtual_memory_percent : float;        (* psutil.virtual_memory().percent *)
  psutil_disk_percent : string -> float; (* psutil.disk_usage(p).percent *)
  shutil_disk_usage : string -> disk_usage
}.

Definition set_nodes (m : gmap string node) (w : world) : world :=
  World m (clock w) (platform_system w) (cpu_percent w)
        (virtual_memory_percent w) (psutil_disk_percent w)
        (shutil_disk_usage w).

(** A raised exception: its class and [str(e)]. *)
Record exn : Type := Exn {
  exn_class : string;
  exn_str : string
}.

(** A computation over a state [W] either returns or raises, and leaves a
    state behind. *)
Definition st (W A : Type) : Type := W -> (exn + A) * W.

(** The handlers run over a [world]. *)
Definition io (A : Type) : Type := st world A.

Definition ret {W A} (a : A) : st W A := fun w => (inr a, w).

Definition raise {W A} (e : exn) : st W A := fun w => (inl e, w).

Definition bind {W A B} (c : st W A) (k : A -> st W B) : st W B :=
  fun w =>
    match c w with
    | (inr a, w') => k a w'
    | (inl e, w') => (inl e, w')
    end.

(** [try: c  except Exception as e: h e] *)
Definition try_except {W A} (c : st W A) (h : exn -> st W A) : st W A :=
  fun w =>
    match c w with
    | (inr a, w') => (inr a, w')
    | (inl e, w') => h e w'
    end.

Declare Scope io_scope.
Delimit Scope io_scope with io.
Notation "x <- c ;; k" := (bind c (fun x => k))
  (at level 100, c at next level, right associativity) : io_scope.
Open Scope io_scope.

(** [for x in l: acc = body acc x], the loop's mutated locals being [acc]. *)
Fixpoint for_each {W A S} (l : list A) (body : S -> A -> st W S) (acc : S)
  : st W S :=
  match l with
  | [] => ret acc
  | x :: rest => acc' <- body acc x ;; for_each rest body acc'
  end.

(* ===================================================================== *)
(** ** The [os], [os.path] and [time] calls *)
(* ===================================================================== *)

Module Os.

(** [posixpath.join(a, b)] *)
Definition path_join (a b : string) : string :=
  if PyStr.starts_with_sep b then b
  else if bool_decide (a = "") || PyStr.ends_with_sep a then a +:+ b
  else a +:+ "/" +:+ b.

(** What [path_join folder] puts before a relative name. *)
Definition join_prefix (folder : string) : string :=
  if bool_decide (folder = "") || PyStr.ends_with_sep folder then folder
  else folder +:+ "/".

(** A name that a directory listing can hold. *)
Definition entry_name (n : string) : bool :=
  negb (bool_decide (n = "")) && negb (bool_decide (n = "."))
  && negb (bool_decide (n = "..")) && negb (PyStr.has_sep n).

(** The name under which the path [p] lies directly in [folder], if it
    does. *)
Definition name_in (folder p : string) : option string :=
  match PyStr.strip_prefix (join_prefix folder) p with
  | Some n => if entry_name n then Some n else None
  | None => None
  end.

(** The names directly under [folder], each once. *)
Definition present_names {A} (m : gmap string A) (folder : string)
  : list string :=
  omap (fun '(p, _) => name_in folder p) (map_to_list m).

(** The order that the directory [folder] prefers. *)
Definition listing_order (m : gmap string node) (folder : string)
  : list string :=
  match m !! folder with
  | Some (Dir d) => d_order d
  | _ => []
  end.

(** [present] in the order [pref]: the names that [pref] mentions first,
    in its order, then the others. *)
Definition order_names (pref present : list string) : list string :=
  filter (fun n => n ∈ present) (remove_dups pref)
  ++ filter (fun n => n ∉ pref) present.

(** The names directly under [folder], in the order in which the filesystem
    hands them over. *)
Definition dir_names (m : gmap string node) (folder : string) : list string :=
  order_names (listing_order m folder) (present_names m folder).

Definition path_exists (p : string) : io bool :=
  fun w => (inr (bool_decide (is_Some (nodes w !! p))), w).

Definition path_isfile (p : string) : io bool :=
  fun w => (inr (is_reg (nodes w) p), w).

(** An [OSError] that carries a file name: [str(e)] is the errno text
    followed by [repr] of the name. *)
Definition os_error (cls msg p : string) : exn :=
  Exn cls (msg +:+ ": " +:+ PyStr.repr p).

(** [os.stat(p)], as far as the handlers read it: modification time and
    size. *)
Definition stat (p : string) : io (float * Z) :=
  fun w =>
    match nodes w !! p with
    | Some (Reg f) => (inr (st_mtime f, st_size f), w)
    | Some (Dir d) => (inr (d_mtime d, d_size d), w)
    | None =>
        (inl (os_error "FileNotFoundError"
                       "[Errno 2] No such file or directory" p), w)
    end.

Definition path_getmtime (p : string) : io float :=
  st <- stat p ;; ret (fst st).

Definition path_getsize (p : string) : io Z :=
  st <- stat p ;; ret (snd st).

Definition listdir (p : string) : io (list string) :=
  fun w =>
    match nodes w !! p with
    | Some (Dir d) =>
        match d_list_error d with
        | None => (inr (dir_names (nodes w) p), w)
        | Some msg => (inl (Exn "PermissionError" msg), w)
        end
    | Some (Reg _) =>
        (inl (os_error "NotADirectoryError" "[Errno 20] Not a directory" p), w)
    | None =>
        (inl (os_error "FileNotFoundError"
                       "[Errno 2] No such file or directory" p), w)
    end.

(** A change of its entries moves a directory's modification time. *)
Definition touch (now : float) (nd : node) : node :=
  match nd with
  | Dir d => Dir (MkDir now (d_size d) (d_order d) (d_list_error d))
  | Reg f => Reg f
  end.

(** The filesystem once the entry [p] is gone: [p] names nothing, and the
    directories that held it (as [name_in] tells) are touched. *)
Definition unlink (p : string) (now : float) (m : gmap string node)
  : gmap string node :=
  map_imap (fun k nd =>
              Some (if bool_decide (is_Some (name_in k p))
                    then touch now nd else nd))
           (delete p m).

Definition remove (p : string) : io unit :=
  fun w =>
    match nodes w !! p with
    | Some (Reg f) =>
        match remove_error f with
        | None => (inr tt, set_nodes (unlink p (clock w) (nodes w)) w)
        | Some msg => (inl (Exn "OSError" msg), w)
        end
    | Some (Dir _) =>
        (inl (os_error "IsADirectoryError" "[Errno 21] Is a directory" p), w)
    | None =>
        (inl (os_error "FileNotFoundError"
                       "[Errno 2] No such file or directory" p), w)
    end.

(** [open(p, "r", errors="ignore")] followed by the iteration over its
    lines.  A [Reg] is a file that the process may read: [open] raises on
    a directory and on a missing path, and a file that it refuses is no
    [Reg] of the world. *)
Definition read_lines (p : string) : io (list string) :=
  fun w =>
    match nodes w !! p with
    | Some (Reg f) => (inr (PyStr.text_lines (content f)), w)
    | Some (Dir _) =>
        (inl (os_error "IsADirectoryError" "[Errno 21] Is a directory" p), w)
    | None =>
        (inl (os_error "FileNotFoundError"
                       "[Errno 2] No such file or directory" p), w)
    end.

Definition time_time : io float := fun w => (inr (clock w), w).

End Os.

(* ===================================================================== *)
(** ** Log management: [preview_logs], [delete_logs], [summarize_log] *)
(* ===================================================================== *)

(** [a / b] to the nearest integer, ties to the even one ([b > 0]). *)
Definition round_half_even (a b : Z) : Z :=
  let q := a / b in
  let r := a mod b in
  if 2 * r <? b then q
  else if b <? 2 * r then q + 1
  else if Z.even q then q else q + 1.

(** The binary64 float nearest to the integer [n], ties to even, as a pair
    [(m, k)] that stands for [m * 2^k]: [n] itself below [2^53], and 53
    significant bits of it from there on. *)
Definition nearest53 (n : Z) : Z * Z :=
  let k := Z.log2 (Z.abs n) - 52 in
  if k <=? 0 then (n, 0) else (round_half_even n (2 ^ k), k).

(** [round(total_space / (1024*1024), 2)], as a count of hundredths over
    100.  [int / int] is the float nearest to the exact quotient, which for
    the divisor [2^20] is [nearest53 total_space] scaled by [2^-20]; [round]
    then rounds the exact value of that float to two decimals, ties to
    even, and hands back the float nearest to the decimal.  (Where the
    quotient is no finite float, from about [2^1044] bytes on, Python
    raises [OverflowError]; that is not represented, and [finite_quotient]
    below draws the line.) *)
Definition round2_mb (total_space : Z) : Q :=
  let (m, k) := nearest53 total_space in
  let e := k - 20 in
  (if 0 <=? e then m * 2 ^ e * 100
   else round_half_even (m * 100) (2 ^ (- e))) # 100.

(** The quotient of [n] bytes by [2^20] is a finite float: it rounds to
    less than [2^1024].  From there on [int / int] raises
    [OverflowError]. *)
Definition finite_quotient (n : Z) : bool :=
  Z.abs n <? 2 ^ 1044 - 2 ^ 990.

(** The same quotient as the kernel's specification of binary64 computes
    it, for comparison: [n * 2^-20] normalised to 53 bits. *)
Definition binary64_quotient (n : Z) : spec_float :=
  binary_normalize 53 1024 n (-20) false.

(** [m * 2^e] of a finite float. *)
Definition sf_pair (x : spec_float) : option (Z * Z) :=
  match x with
  | S754_zero _ => Some (0, 0)
  | S754_finite s m e => Some (if s then Z.neg m else Z.pos m, e)
  | _ => None
  end.

Definition same_value (a b : Z * Z) : bool :=
  let e := Z.min (snd a) (snd b) in
  fst a * 2 ^ (snd a - e) =? fst b * 2 ^ (snd b - e).

Definition quotient_agrees (n : Z) : bool :=
  match sf_pair (binary64_quotient n) with
  | Some p => same_value p (fst (nearest53 n), snd (nearest53 n) - 20)
  | None => false
  end.

(** The locals that the two folder loops mutate: the list built so far and
    [total_space]. *)
Record scan : Type := Scan {
  listed : list json;
  total_space : Z
}.

(** The age test of both loops: [now - mtime > days * 86400]. *)
Definition older (now mtime : float) (days : Z) : bool :=
  PyFloat.gt_int (now - mtime)%float (days * 86400).

Definition error_response (msg : string) : json :=
  JObj [("error", JStr msg)].

Definition preview_entry (f : string) (size : Z) : json :=
  JObj [("file", JStr f); ("size_bytes", JInt size)].

Definition preview_step (folder : string) (days : Z) (now : float)
    (acc : scan) (f : string) : io scan :=
  let path := Os.path_join folder f in
  isf <- Os.path_isfile path ;;
  if isf : bool then
    mtime <- Os.path_getmtime path ;;
    if older now mtime days then
      size <- Os.path_getsize path ;;
      ret (Scan (listed acc ++ [preview_entry f size]) (total_space acc + size))
    else ret acc
  else ret acc.

Definition delete_url (folder : string) (days : Z) : string :=
  "/logs/delete-confirmed?folder=" +:+ folder +:+ "&days="
  +:+ PyStr.of_int days +:+ "&confirm=yes".

(** [GET /logs/preview-delete] *)
Definition preview_logs (folder : string) (days : Z) : io json :=
  ex <- Os.path_exists folder ;;
  if negb ex then ret (error_response ("Folder not found: " +:+ folder))
  else
    now <- Os.time_time ;;
    names <- Os.listdir folder ;;
    acc <- for_each names (preview_step folder days now) (Scan [] 0) ;;
    ret (JObj [("files_to_delete", JArr (listed acc));
               ("total_space_to_free_mb", JNum (round2_mb (total_space acc)));
               ("delete_url", JStr (delete_url folder days))]).

Definition failed_entry (f : string) (e : exn) : json :=
  JObj [("file", JStr f); ("error", JStr (exn_str e))].

Definition delete_step (folder : string) (days : Z) (now : float)
    (acc : scan) (f : string) : io scan :=
  let path := Os.path_join folder f in
  isf <- Os.path_isfile path ;;
  if isf : bool then
    mtime <- Os.path_getmtime path ;;
    if older now mtime days then
      size <- Os.path_getsize path ;;
      try_except
        (_ <- Os.remove path ;;
         ret (Scan (listed acc ++ [JStr f]) (total_space acc + size)))
        (fun e => ret (Scan (listed acc ++ [failed_entry f e])
                            (total_space acc)))
    else ret acc
  else ret acc.

Definition not_performed (folder : string) (days : Z) : json :=
  JObj [("message",
         JStr "Deletion not performed. Use ?confirm=yes to proceed.");
        ("folder", JStr folder);
        ("days", JInt days)].

(** [DELETE /logs/delete-confirmed] *)
Definition delete_logs (folder : string) (days : Z) (confirm : string)
  : io json :=
  if negb (bool_decide (PyStr.lower confirm = "yes")) then
    ret (not_performed folder days)
  else
    ex <- Os.path_exists folder ;;
    if negb ex then ret (error_response ("Folder not found: " +:+ folder))
    else
      now <- Os.time_time ;;
      names <- Os.listdir folder ;;
      acc <- for_each names (delete_step folder days now) (Scan [] 0) ;;
      ret (JObj [("deleted_files", JArr (listed acc));
                 ("space_freed_mb", JNum (round2_mb (total_space acc)));
                 ("folder", JStr folder);
                 ("days", JInt days)]).

(** The [summary] dict of [summarize_log]. *)
Record summary : Type := Summary {
  errors : Z;
  warnings : Z;
  info : Z;
  total_lines : Z
}.

Inductive level : Type := LError | LWarning | LInfo.

Global Instance level_eq_dec : EqDecision level.
Proof. solve_decision. Defined.

(** The [if]/[elif]/[elif] chain on one line. *)
Definition classify (line : string) : option level :=
  if PyStr.search_ignorecase "error" line then Some LError
  else if PyStr.search_ignorecase "warn" line then Some LWarning
  else if PyStr.search_ignorecase "info" line then Some LInfo
  else None.

Definition summarize_step (s : summary) (line : string) : io summary :=
  let s := Summary (errors s) (warnings s) (info s) (total_lines s + 1) in
  ret (match classify line with
       | Some LError =>
           Summary (errors s + 1) (warnings s) (info s) (total_lines s)
       | Some LWarning =>
           Summary (errors s) (warnings s + 1) (info s) (total_lines s)
       | Some LInfo =>
           Summary (errors s) (warnings s) (info s + 1) (total_lines s)
       | None => s
       end).

Definition summary_response (s : summary) : json :=
  JObj [("errors", JInt (errors s));
        ("warnings", JInt (warnings s));
        ("info", JInt (info s));
        ("total_lines", JInt (total_lines s))].

(** [POST /logs/summarize] *)
Definition summarize_log (file_path : string) : io json :=
  ex <- Os.path_exists file_path ;;
  if negb ex then ret (error_response ("File not found: " +:+ file_path))
  else
    try_except
      (lines <- Os.read_lines file_path ;;
       s <- for_each lines summarize_step (Summary 0 0 0 0) ;;
       ret (summary_response s))
      (fun e => ret (error_response (exn_str e))).

(* ===================================================================== *)
(** ** Health checks *)
(* ===================================================================== *)

Definition read {A} (get : world -> A) : io A := fun w => (inr (get w), w).

Definition backslash : string := String "092" "".

Section Health.

(** The text of a float in an f-string with no format ([f"{x}"]) and with
    the format [.1f], and the true division of two ints by a non-zero
    divisor: Python's own routines, left as parameters. *)
Variable str_float : float -> string.
Variable format_1f : float -> string.
Variable int_truediv : Z -> Z -> float.

Definition percent (text : string) : json := JStr (text +:+ "%").

(** The first [GET /health] handler. *)
Definition health_check : io json :=
  cpu <- read cpu_percent ;;
  memory <- read virtual_memory_percent ;;
  system <- read platform_system ;;
  let disk_path :=
    if bool_decide (system = "Windows") then "C:" +:+ backslash else "/" in
  disk <- read (fun w => psutil_disk_percent w disk_path) ;;
  ret (JObj [("status",
              JStr (if PyFloat.lt_int cpu 80 && PyFloat.lt_int memory 80
                    then "OK" else "WARNING"));
             ("cpu", percent (str_float cpu));
             ("memory", percent (str_float memory));
             ("disk", percent (str_float disk))]).

(** [a / b] on ints. *)
Definition truediv (a b : Z) : io float :=
  if bool_decide (b = 0) then
    raise (Exn "ZeroDivisionError" "division by zero")
  else ret (int_truediv a b).

(** The second [GET /health] handler, defined after [app] is rebound. *)
Definition health : io json :=
  cpu <- read cpu_percent ;;
  memory <- read virtual_memory_percent ;;
  used <- read (fun w => du_used (shutil_disk_usage w "/")) ;;
  total <- read (fun w => du_total (shutil_disk_usage w "/")) ;;
  ratio <- truediv used total ;;
  let disk := (ratio * 100)%float in
  ret (JObj [("status", JStr "OK");
             ("cpu", percent (str_float cpu));
             ("memory", percent (str_float memory));
             ("disk", percent (format_1f disk))]).

End Health.

(** [GET /] *)
Definition root : io json :=
  ret (JObj [("message", JStr "Hello from Copilot FastAPI Demo!")]).

(* ===================================================================== *)
(** ** The module's top level: which application object it exports *)
(* ===================================================================== *)

Inductive method : Type := GET | POST | DELETE | HEAD.

(** The functions that the module registers as handlers. *)
Inductive endpoint : Type :=
  | EpApiListUsers
  | EpHealthCheck
  | EpPreviewLogs
  | EpDeleteLogs
  | EpSummarizeLog
  | EpGetEvents
  | EpAiPluginManifest
  | EpHealth
  | EpRoot
  | EpOpenapi             (* FastAPI's own: the OpenAPI schema *)
  | EpSwaggerUi           (* FastAPI's own: the Swagger UI page *)
  | EpSwaggerRedirect     (* FastAPI's own: the OAuth2 redirect page *)
  | EpRedoc.              (* FastAPI's own: the ReDoc page *)

Record route : Type := Route {
  route_method : method;
  route_path : string;
  route_endpoint : endpoint
}.

(** A [FastAPI] object, as far as the module touches it: its routes, in
    order (one entry per accepted method). *)
Definition fastapi : Type := list route.

(** The routes that [FastAPI(...)] sets up by itself with the default
    [openapi_url], [docs_url], [swagger_ui_oauth2_redirect_url] and
    [redoc_url], which both calls of the module leave as they are; each is
    a plain route, which answers GET and HEAD. *)
Definition fresh_app : fastapi :=
  [ Route GET "/openapi.json" EpOpenapi;
    Route HEAD "/openapi.json" EpOpenapi;
    Route GET "/docs" EpSwaggerUi;
    Route HEAD "/docs" EpSwaggerUi;
    Route GET "/docs/oauth2-redirect" EpSwaggerRedirect;
    Route HEAD "/docs/oauth2-redirect" EpSwaggerRedirect;
    Route GET "/redoc" EpRedoc;
    Route HEAD "/redoc" EpRedoc ].

(** The top-level statements that bind or use the name [app]. *)
Inductive stmt : Type :=
  | BindApp                      (* app = FastAPI(...) *)
  | Decorate (r : route).        (* @app.<method>(path) def endpoint ... *)

Definition main_py : list stmt :=
  [ BindApp;
    Decorate (Route GET "/users" EpApiListUsers);
    Decorate (Route GET "/health" EpHealthCheck);
    Decorate (Route GET "/logs/preview-delete" EpPreviewLogs);
    Decorate (Route DELETE "/logs/delete-confirmed" EpDeleteLogs);
    Decorate (Route POST "/logs/summarize" EpSummarizeLog);
    Decorate (Route GET "/events" EpGetEvents);
    Decorate (Route GET "/.well-known/ai-plugin.json" EpAiPluginManifest);
    BindApp;
    Decorate (Route GET "/health" EpHealth);
    Decorate (Route GET "/" EpRoot) ].

(** Running one statement on the current binding of [app]; a decorator adds
    its route to the object that [app] names at that moment. *)
Definition exec_stmt (app : fastapi) (s : stmt) : fastapi :=
  match s with
  | BindApp => fresh_app
  | Decorate r => app ++ [r]
  end.

(** The object that [app] names once the module has run ([main:app]). *)
Definition exported_app : fastapi := fold_left exec_stmt main_py [].

Global Instance method_eq_dec : EqDecision method.
Proof. solve_decision. Defined.

(** The first route that matches a request decides its handler. *)
Fixpoint dispatch (app : fastapi) (m : method) (p : string)
  : option endpoint :=
  match app with
  | [] => None
  | r :: rest =>
      if bool_decide (route_method r = m) && bool_decide (route_path r = p)
      then Some (route_endpoint r)
      else dispatch rest m p
  end.

(* ===================================================================== *)
(** ** Reading responses; the files a folder scan is about *)
(* ===================================================================== *)

(** A field of the response, when the handler returned one. *)
Definition response_field (k : string) (r : exn + json) : option json :=
  match r with
  | inr j => field k j
  | inl _ => None
  end.

(** The file that an entry of [files_to_delete] or [deleted_files] names:
    the entry is the name itself or an object with a ["file"] key. *)
Definition entry_file (j : json) : option string :=
  match j with
  | JStr n => Some n
  | JObj fields =>
      match assoc "file" fields with
      | Some (JStr n) => Some n
      | _ => None
      end
  | _ => None
  end.

(** The files named under key [k] of a response (none when the handler
    raised or returned no such list). *)
Definition response_files (k : string) (r : exn + json) : list string :=
  match response_field k r with
  | Some j => omap entry_file (items_of j)
  | None => []
  end.

(** The regular file at [folder/n], if there is one. *)
Definition file_at (m : gmap string node) (folder n : string) : option file :=
  match m !! Os.path_join folder n with
  | Some (Reg f) => Some f
  | _ => None
  end.

(** [n] is a regular file of [folder] older than [days] days at [now]. *)
Definition aged (m : gmap string node) (folder : string) (days : Z)
    (now : float) (n : string) : bool :=
  match file_at m folder n with
  | Some f => older now (st_mtime f) days
  | None => false
  end.

Definition size_at (m : gmap string node) (folder n : string) : Z :=
  match file_at m folder n with
  | Some f => st_size f
  | None => 0
  end.

(** [os.remove] would succeed on [folder/n]. *)
Definition removable (m : gmap string node) (folder n : string) : bool :=
  match file_at m folder n with
  | Some f => bool_decide (remove_error f = None)
  | None => false
  end.

(** The aged files of [folder], in listing order. *)
Definition aged_files (w : world) (folder : string) (days : Z) : list string :=
  filter (fun n => aged (nodes w) folder days (clock w) n = true)
         (Os.dir_names (nodes w) folder).

Definition sum_sizes (m : gmap string node) (folder : string)
    (l : list string) : Z :=
  foldr (fun n s => size_at m folder n + s) 0 l.

(** What [deleted_files] holds for an aged file: its name when the removal
    succeeds, the name and the message when it raises. *)
Definition deletion_entry (m : gmap string node) (folder n : string) : json :=
  match file_at m folder n with
  | Some f =>
      match remove_error f with
      | None => JStr n
      | Some msg => JObj [("file", JStr n); ("error", JStr msg)]
      end
  | None => JStr n
  end.

Definition remove_paths (folder : string) (now : float) (l : list string)
    (m : gmap string node) : gmap string node :=
  foldl (fun m n => Os.unlink (Os.path_join folder n) now m) m l.

(** The files that a deleting run over [ns] removes: aged, and removable. *)
Definition doomed (m : gmap string node) (folder : string) (days : Z)
    (now : float) (ns : list string) : list string :=
  filter (fun n => aged m folder days now n = true
                   /\ removable m folder n = true) ns.


(** Two filesystems hold the same files under the names of [ns]. *)
Definition agree (m1 m2 : gmap string node) (folder : string)
    (ns : list string) : Prop :=
  forall n, n ∈ ns -> file_at m1 folder n = file_at m2 folder n.

(** The number of lines of a given level (or of none). *)
Definition count_level (l : option level) (lines : list string) : Z :=
  Z.of_nat (length (filter (fun line => classify line = l) lines)).

Definition is_nan (x : float) : bool :=
  match Prim2SF x with
  | S754_nan => true
  | _ => false
  end.

(** The application object before [app] is rebound. *)
Definition first_app : fastapi := fold_left exec_stmt (take 8 main_py) [].

(* ===================================================================== *)
(** ** Sample worlds *)
(* ===================================================================== *)

Module Sample.

Definition newline : string := String "010" "".

Definition a_log : file :=
  File 1000 2097152
       ("boot ok" +:+ newline +:+ "ERROR disk: warning info" +:+ newline
        +:+ "Warn: low" +:+ newline +:+ "information")
       None.

Definition b_log : file :=
  File 2000 524288 "warn" (Some "[Errno 13] Permission denied: 'logs/b.log'").

Definition c_log : file := File 9999000 100 "info" None.

Definition d_log : file := File 3000 131072 "" None.

Definition tree : gmap string node :=
  list_to_map
    [("logs", Dir (MkDir 5000 4096 [] None)); ("logs/a.log", Reg a_log);
     ("logs/b.log", Reg b_log); ("logs/c.log", Reg c_log);
     ("logs/d.log", Reg d_log); ("logs/sub", Dir (MkDir 0 4096 [] None));
     ("logs/sub/x.log", Reg a_log); ("notes.txt", Reg c_log)].

Definition host (cpu memory : float) : world :=
  World tree 10000000 "Linux" cpu memory (fun _ => 50%float)
        (fun _ => DiskUsage 1000 400 600).

Definition calm : world := host 12.5 40.

Definition at_threshold : world := host 80 40.

(** A host whose root filesystem reports no blocks at all. *)
Definition no_blocks : world :=
  World tree 10000000 "Linux" 95 40 (fun _ => 50%float)
        (fun _ => DiskUsage 0 0 0).




Definition text (x : float) : string := "?".

Definition quotient (a b : Z) : float := 0.

End Sample.

(* ===================================================================== *)
(** ** More of [str]: [in], [strip], slices *)
(* ===================================================================== *)

Module StrOps.

(** [sub in s] *)
Fixpoint contains (sub s : string) : bool :=
  String.prefix sub s ||
  match s with
  | EmptyString => false
  | String _ s' => contains sub s'
  end.

(** [c.isspace()] on a Latin-1 code point: tab to carriage return, the
    four separators U+001C..U+001F, the space, U+0085 and U+00A0. *)
Definition is_space (c : ascii) : bool :=
  let n := nat_of_ascii c in
  ((9 <=? n)%nat && (n <=? 13)%nat) || ((28 <=? n)%nat && (n <=? 32)%nat)
  || (n =? 133)%nat || (n =? 160)%nat.

(** [s.lstrip()] *)
Fixpoint lstrip (s : string) : string :=
  match s with
  | EmptyString => EmptyString
  | String c r => if is_space c then lstrip r else s
  end.

(** [s.rstrip()] *)
Fixpoint rstrip (s : string) : string :=
  match s with
  | EmptyString => EmptyString
  | String c r =>
      match rstrip r with
      | EmptyString => if is_space c then EmptyString else String c EmptyString
      | r' => String c r'
      end
  end.

(** [s.strip()] *)
Definition strip (s : string) : string := rstrip (lstrip s).

(** [l[-n:]] for a positive [n]. *)
Definition last_n {A} (n : nat) (l : list A) : list A :=
  drop (length l - n) l.

(** [s.count("\n")] *)
Fixpoint count_newlines (s : string) : nat :=
  match s with
  | EmptyString => O
  | String c r =>
      if bool_decide (c = "010"%char) then S (count_newlines r)
      else count_newlines r
  end.

(** [s] is not empty and does not end with a newline. *)
Fixpoint unterminated (s : string) : bool :=
  match s with
  | EmptyString => false
  | String c EmptyString => negb (bool_decide (c = "010"%char))
  | String _ r => unterminated r
  end.

Fixpoint has_cr (s : string) : bool :=
  match s with
  | EmptyString => false
  | String c r => bool_decide (c = "013"%char) || has_cr r
  end.

End StrOps.

(* ===================================================================== *)
(** ** Event Viewer / syslog: [get_events] *)
(* ===================================================================== *)

(** What the handler reads of a [win32evtlog] event. *)
Record event_record : Type := EventRecord {
  SourceName : string;
  EventID : Z;
  EventType : Z
}.

Definition events_response (events : list json) : json :=
  JObj [("events", JArr events)].

(** One turn of the loop over the Windows events, with its two [continue]s. *)
Definition windows_step (level : string) (events : list json)
    (ev : event_record) : io (list json) :=
  if bool_decide (level = "error") && negb (bool_decide (EventType ev = 1))
  then ret events
  else if bool_decide (level = "warning")
          && negb (bool_decide (EventType ev = 2))
  then ret events
  else ret (events ++ [JObj [("source", JStr (SourceName ev));
                             ("event_id", JInt (EventID ev));
                             ("event_type", JInt (EventType ev))]]).

(** One turn of the loop over the syslog lines. *)
Definition syslog_step (level : string) (events : list json)
    (line : string) : io (list json) :=
  if bool_decide (level = "error")
     && negb (StrOps.contains "error" (PyStr.lower line))
  then ret events
  else if bool_decide (level = "warning")
          && negb (StrOps.contains "warn" (PyStr.lower line))
  then ret events
  else ret (events ++ [JStr (StrOps.strip line)]).

Section Events.

(** The [pywin32] side, left as parameters: the [import] of
    [win32evtlog], the two calls [OpenEventLog(None, "Application")] and
    [ReadEventLog(hand, flags, 0)] taken together, and the test that an
    exception is an [ImportError]. *)
Variable import_win32evtlog : io unit.
Variable read_event_log : io (list event_record).
Variable is_import_error : exn -> bool.

(** [GET /events] *)
Definition get_events (source level : string) : io json :=
  system <- read platform_system ;;
  if bool_decide (source = "windows") && bool_decide (system = "Windows")
  then
    try_except
      (_ <- import_win32evtlog ;;
       events_read <- read_event_log ;;
       events <- for_each (take 50 events_read) (windows_step level) [] ;;
       ret (events_response events))
      (fun e =>
         if is_import_error e then
           ret (error_response
                  ("win32evtlog not installed. "
                   +:+ "Install pywin32 to use Windows Event Viewer."))
         else ret (error_response (exn_str e)))
  else if bool_decide (source = "linux") && bool_decide (system = "Linux")
  then
    ex <- Os.path_exists "/var/log/syslog" ;;
    let syslog_path :=
      if ex : bool then "/var/log/syslog" else "/var/log/messages" in
    try_except
      (all_lines <- Os.read_lines syslog_path ;;
       events <- for_each (StrOps.last_n 200 all_lines) (syslog_step level)
                          [] ;;
       ret (events_response events))
      (fun e => ret (error_response (exn_str e)))
  else
    ret (error_response (source +:+ " logs not available on " +:+ system)).

End Events.

(** The syslog lines that a level lets through. *)
Definition passes (level line : string) : bool :=
  negb (bool_decide (level = "error")
        && negb (StrOps.contains "error" (PyStr.lower line)))
  && negb (bool_decide (level = "warning")
           && negb (StrOps.contains "warn" (PyStr.lower line))).

(** The Windows events that a level lets through. *)
Definition admits (level : string) (ev : event_record) : bool :=
  negb (bool_decide (level = "error") && negb (bool_decide (EventType ev = 1)))
  && negb (bool_decide (level = "warning")
           && negb (bool_decide (EventType ev = 2))).

Definition event_json (ev : event_record) : json :=
  JObj [("source", JStr (SourceName ev));
        ("event_id", JInt (EventID ev));
        ("event_type", JInt (EventType ev))].

(** The log file that the Linux branch opens. *)
Definition syslog_path (w : world) : string :=
  if bool_decide (is_Some (nodes w !! "/var/log/syslog"))
  then "/var/log/syslog" else "/var/log/messages".

(* ===================================================================== *)
(** ** Microsoft Graph users: [get_access_token], [list_users_graph] *)
(* ===================================================================== *)

(** A Python value as [resp.json()] yields them and as the handler returns
    them ([None] included, which [json] has no place for). *)
Inductive pyobj : Type :=
  | PNone
  | PBool (b : bool)
  | PInt (n : Z)
  | PFloat (x : float)
  | PStr (s : string)
  | PList (items : list pyobj)
  | PDict (entries : list (string * pyobj)).

(** [type(v).__name__] *)
Definition type_name (v : pyobj) : string :=
  match v with
  | PNone => "NoneType"
  | PBool _ => "bool"
  | PInt _ => "int"
  | PFloat _ => "float"
  | PStr _ => "str"
  | PList _ => "list"
  | PDict _ => "dict"
  end.

Fixpoint dict_lookup (k : string) (d : list (string * pyobj))
  : option pyobj :=
  match d with
  | [] => None
  | (k', v) :: rest =>
      if bool_decide (k' = k) then Some v else dict_lookup k rest
  end.

(** [v.get(k, default)]: only a dict has the method. *)
Definition py_get (v : pyobj) (k : string) (default : pyobj) : io pyobj :=
  match v with
  | PDict d =>
      ret (match dict_lookup k d with Some x => x | None => default end)
  | _ =>
      raise (Exn "AttributeError"
                 ("'" +:+ type_name v +:+ "' object has no attribute 'get'"))
  end.

Fixpoint chars (s : string) : list pyobj :=
  match s with
  | EmptyString => []
  | String c r => PStr (String c EmptyString) :: chars r
  end.

(** [for u in v]: the items of a list, the keys of a dict, the characters
    of a string; nothing else can be iterated over. *)
Definition py_iter (v : pyobj) : io (list pyobj) :=
  match v with
  | PList l => ret l
  | PDict d => ret (map (fun kv => PStr (fst kv)) d)
  | PStr s => ret (chars s)
  | _ =>
      raise (Exn "TypeError"
                 ("'" +:+ type_name v +:+ "' object is not iterable"))
  end.

(** What the handler reads of a [requests] response; [resp.json()] parses
    the body and may raise. *)
Record response : Type := Response {
  status_code : Z;
  text : string;
  json_body : io pyobj
}.

(** [bool(v)] for a value that is [None] or a [str]. *)
Definition truthy (v : option string) : bool :=
  match v with
  | Some s => negb (bool_decide (s = ""))
  | None => false
  end.

Definition token_error : pyobj :=
  PDict [("error",
          PStr ("Failed to acquire token. Make sure TENANT_ID, CLIENT_ID, "
                +:+ "CLIENT_SECRET are set as environment variables."))].

(** One turn of the comprehension that builds [users]. *)
Definition user_step (users : list pyobj) (u : pyobj) : io (list pyobj) :=
  name <- py_get u "displayName" PNone ;;
  email <- py_get u "userPrincipalName" PNone ;;
  ret (users ++ [PDict [("name", name); ("email", email)]]).

Section Graph.

(** The configuration read from the environment when the module is
    loaded, and the two services, left as parameters:
    [msal.ConfidentialClientApplication(client_id, authority=...,
    client_credential=...).acquire_token_for_client(scopes=...)
    .get("access_token")] and [requests.get(url, headers=...)]. *)
Variables TENANT_ID CLIENT_ID CLIENT_SECRET : option string.
Variable acquire_access_token :
  string -> string -> string -> list string -> io (option string).
Variable requests_get : string -> list (string * string) -> io response.

Definition AUTHORITY : option string :=
  if truthy TENANT_ID
  then Some ("https://login.microsoftonline.com/"
             +:+ default "" TENANT_ID)
  else None.

Definition SCOPE : list string := ["https://graph.microsoft.com/.default"].

Definition get_access_token : io (option string) :=
  if negb (truthy CLIENT_ID) || negb (truthy CLIENT_SECRET)
     || negb (truthy AUTHORITY)
  then ret None
  else acquire_access_token (default "" CLIENT_ID) (default "" AUTHORITY)
                            (default "" CLIENT_SECRET) SCOPE.

(** [list_users_graph], which [GET /users] returns as it is. *)
Definition list_users_graph : io pyobj :=
  token <- get_access_token ;;
  if negb (truthy token) then ret token_error
  else
    let headers := [("Authorization", "Bearer " +:+ default "" token)] in
    resp <- requests_get "https://graph.microsoft.com/v1.0/users" headers ;;
    if bool_decide (status_code resp = 200) then
      body <- json_body resp ;;
      value <- py_get body "value" (PList []) ;;
      items <- py_iter value ;;
      users <- for_each items user_step [] ;;
      ret (PDict [("users", PList users)])
    else
      ret (PDict [("error", PStr (text resp));
                  ("status_code", PInt (status_code resp))]).

Definition api_list_users : io pyobj := list_users_graph.

End Graph.

(** The entry of [users] made from a directory object. *)
Definition user_entry (u : list (string * pyobj)) : pyobj :=
  PDict [("name", default PNone (dict_lookup "displayName" u));
         ("email", default PNone (dict_lookup "userPrincipalName" u))].

Definition is_dict (v : pyobj) : bool :=
  match v with
  | PDict _ => true
  | _ => false
  end.

Module SampleGraph.

Definition ada : pyobj :=
  PDict [("displayName", PStr "Ada"); ("mail", PNone);
         ("userPrincipalName", PStr "ada@example.org")].

Definition guest : pyobj := PDict [("displayName", PStr "Guest")].

Definition ada_entries : list (string * pyobj) :=
  [("displayName", PStr "Ada"); ("mail", PNone);
   ("userPrincipalName", PStr "ada@example.org")].

Definition guest_entries : list (string * pyobj) :=
  [("displayName", PStr "Guest")].

Definition body : pyobj :=
  PDict [("@odata.context", PStr "users"); ("value", PList [ada; guest])].

Definition bad_body : pyobj := PDict [("value", PList [ada; PStr "x"])].

Definition token_service (client_id authority credential : string)
    (scopes : list string) : io (option string) :=
  ret (Some "tok").

Definition graph_ok (url : string) (headers : list (string * string))
  : io response :=
  ret (Response 200 "" (ret body)).

Definition graph_bad (url : string) (headers : list (string * string))
  : io response :=
  ret (Response 200 "" (ret bad_body)).

End SampleGraph.


Module SampleWindows.

Definition host : world :=
  World Sample.tree 10000000 "Windows" 12.5 40 (fun _ => 50%float)
        (fun _ => DiskUsage 1000 400 600).

Definition import_ok : io unit := ret tt.

Definition batch : list event_record :=
  [EventRecord "Service Control Manager" 7036 4;
   EventRecord "Application Error" 1000 1;
   EventRecord "Disk" 51 2;
   EventRecord "MsiInstaller" 11708 1].

Definition read_batch : io (list event_record) := ret batch.

End SampleWindows.

Module SampleLinux.

Definition syslog : file :=
  File 5000 64
       ("  kernel: boot" +:+ Sample.newline
        +:+ "sshd: ERROR auth failed  " +:+ Sample.newline
        +:+ "cron: Warning: late" +:+ Sample.newline)
       None.

Definition host : world :=
  World (<["/var/log/syslog" := Reg syslog]> Sample.tree)
        10000000 "Linux" 12.5 40 (fun _ => 50%float)
        (fun _ => DiskUsage 1000 400 600).

Definition no_import : io unit :=
  raise (Exn "ModuleNotFoundError" "No module named 'win32evtlog'").

Definition no_events : io (list event_record) := ret [].

Definition import_error (e : exn) : bool :=
  bool_decide (exn_class e = "ImportError")
  || bool_decide (exn_class e = "ModuleNotFoundError").

End SampleLinux.

(* ===================================================================== *)
(** ** The folder handlers where there are symbolic links *)
(* ===================================================================== *)

(** [os.path.exists], [os.path.isfile], [os.path.getmtime] and
    [os.path.getsize] follow a symbolic link; [os.listdir] names it;
    [os.remove] removes the link and not what it points to.  [Links] puts
    links over a [world] and runs the two folder handlers there.  A link
    is followed where it is the whole of a path, as for an entry of the
    folder; a path that runs through a link (a folder that is itself a
    link) is outside this model. *)
Module Links.

(** A symbolic link: the path it points to, spelled as the handlers spell
    paths, and the message of the exception that [os.remove] raises on
    the link, if it raises one. *)
Record link : Type := Link {
  target : string;
  unlink_error : option string
}.

(** The directories and regular files of a [world], and the links, by
    path. *)
Record lworld : Type := LWorld {
  base : world;
  links : gmap string link
}.

Definition set_base (w : world) (lw : lworld) : lworld :=
  LWorld w (links lw).

(** A computation that does not look at the links. *)
Definition lift {A} (c : io A) : st lworld A :=
  fun lw =>
    match c (base lw) with
    | (r, w') => (r, set_base w' lw)
    end.

Inductive resolved : Type :=
  | Found (nd : node)
  | Missing
  | Loop.

(** What [p] names once the links are followed, [fuel] of them at most. *)
Fixpoint resolve (fuel : nat) (lw : lworld) (p : string) : resolved :=
  match links lw !! p with
  | Some l =>
      match fuel with
      | O => Loop
      | S fuel' => resolve fuel' lw (target l)
      end
  | None =>
      match nodes (base lw) !! p with
      | Some nd => Found nd
      | None => Missing
      end
  end.

(** Path resolution gives up after 40 links ([ELOOP]). *)
Definition follow : lworld -> string -> resolved := resolve 40.

Definition path_exists (p : string) : st lworld bool :=
  fun lw =>
    (inr match follow lw p with
         | Found _ => true
         | _ => false
         end, lw).

Definition path_isfile (p : string) : st lworld bool :=
  fun lw =>
    (inr match follow lw p with
         | Found (Reg _) => true
         | _ => false
         end, lw).

Definition stat (p : string) : st lworld (float * Z) :=
  fun lw =>
    match follow lw p with
    | Found (Reg f) => (inr (st_mtime f, st_size f), lw)
    | Found (Dir d) => (inr (d_mtime d, d_size d), lw)
    | Missing =>
        (inl (Os.os_error "FileNotFoundError"
                          "[Errno 2] No such file or directory" p), lw)
    | Loop =>
        (inl (Os.os_error "OSError"
                          "[Errno 40] Too many levels of symbolic links" p),
         lw)
    end.

Definition path_getmtime (p : string) : st lworld float :=
  st <- stat p ;; ret (fst st).

Definition path_getsize (p : string) : st lworld Z :=
  st <- stat p ;; ret (snd st).

(** The names directly under [folder]: those of its directories and
    regular files, then those of its links, in the order that the
    directory prefers. *)
Definition dir_names (lw : lworld) (folder : string) : list string :=
  let regular := Os.present_names (nodes (base lw)) folder in
  Os.order_names
    (Os.listing_order (nodes (base lw)) folder)
    (regular
     ++ filter (fun n => n ∉ regular) (Os.present_names (links lw) folder)).

Definition listdir (p : string) : st lworld (list string) :=
  fun lw =>
    match follow lw p with
    | Found (Dir d) =>
        match d_list_error d with
        | None => (inr (dir_names lw p), lw)
        | Some msg => (inl (Exn "PermissionError" msg), lw)
        end
    | Found (Reg _) =>
        (inl (Os.os_error "NotADirectoryError"
                          "[Errno 20] Not a directory" p), lw)
    | Missing =>
        (inl (Os.os_error "FileNotFoundError"
                          "[Errno 2] No such file or directory" p), lw)
    | Loop =>
        (inl (Os.os_error "OSError"
                          "[Errno 40] Too many levels of symbolic links" p),
         lw)
    end.

(** [os.remove(p)]: on a link, the link goes and its target stays. *)
Definition remove (p : string) : st lworld unit :=
  fun lw =>
    match links lw !! p with
    | Some l =>
        match unlink_error l with
        | None =>
            (inr tt,
             LWorld (set_nodes (Os.unlink p (clock (base lw))
                                          (nodes (base lw)))
                               (base lw))
                    (delete p (links lw)))
        | Some msg => (inl (Exn "OSError" msg), lw)
        end
    | None => lift (Os.remove p) lw
    end.

Definition time_time : st lworld float := lift Os.time_time.

(** The two folder handlers once more, line for line, with the calls
    above in place of those of [Os]. *)
Definition preview_step (folder : string) (days : Z) (now : float)
    (acc : scan) (f : string) : st lworld scan :=
  let path := Os.path_join folder f in
  isf <- path_isfile path ;;
  if isf : bool then
    mtime <- path_getmtime path ;;
    if older now mtime days then
      size <- path_getsize path ;;
      ret (Scan (listed acc ++ [preview_entry f size]) (total_space acc + size))
    else ret acc
  else ret acc.

(** [GET /logs/preview-delete] *)
Definition preview_logs (folder : string) (days : Z) : st lworld json :=
  ex <- path_exists folder ;;
  if negb ex then ret (error_response ("Folder not found: " +:+ folder))
  else
    now <- time_time ;;
    names <- listdir folder ;;
    acc <- for_each names (preview_step folder days now) (Scan [] 0) ;;
    ret (JObj [("files_to_delete", JArr (listed acc));
               ("total_space_to_free_mb", JNum (round2_mb (total_space acc)));
               ("delete_url", JStr (delete_url folder days))]).

Definition delete_step (folder : string) (days : Z) (now : float)
    (acc : scan) (f : string) : st lworld scan :=
  let path := Os.path_join folder f in
  isf <- path_isfile path ;;
  if isf : bool then
    mtime <- path_getmtime path ;;
    if older now mtime days then
      size <- path_getsize path ;;
      try_except
        (_ <- remove path ;;
         ret (Scan (listed acc ++ [JStr f]) (total_space acc + size)))
        (fun e => ret (Scan (listed acc ++ [failed_entry f e])
                            (total_space acc)))
    else ret acc
  else ret acc.

(** [DELETE /logs/delete-confirmed] *)
Definition delete_logs (folder : string) (days : Z) (confirm : string)
  : st lworld json :=
  if negb (bool_decide (PyStr.lower confirm = "yes")) then
    ret (not_performed folder days)
  else
    ex <- path_exists folder ;;
    if negb ex then ret (error_response ("Folder not found: " +:+ folder))
    else
      now <- time_time ;;
      names <- listdir folder ;;
      acc <- for_each names (delete_step folder days now) (Scan [] 0) ;;
      ret (JObj [("deleted_files", JArr (listed acc));
                 ("space_freed_mb", JNum (round2_mb (total_space acc)));
                 ("folder", JStr folder);
                 ("days", JInt days)]).


End Links.

Module SampleLinks.

(** A folder with the old file [a.log] and, listed after it, the link
    [z.log] to it. *)
Definition host : world :=
  World (list_to_map
           [("logs", Dir (MkDir 5000 4096 ["a.log"; "z.log"] None));
            ("logs/a.log", Reg Sample.a_log)])
        10000000 "Linux" 12.5 40 (fun _ => 50%float)
        (fun _ => DiskUsage 1000 400 600).



End SampleLinks.

(* ===================================================================== *)
(** ** [repr] of a path *)
(* ===================================================================== *)

Example repr_plain : PyStr.repr "logs/a.log" = "'logs/a.log'".
Proof. reflexivity. Qed.

(** A single quote inside moves the string into double quotes. *)
Example repr_single_quote :
  PyStr.repr "it's" = String "034" ("it's" +:+ String "034" EmptyString).
Proof. reflexivity. Qed.

(** A backslash is doubled. *)
Example repr_backslash :
  PyStr.repr (String "092" "tmp") = "'\\tmp'"
  /\ String.length (PyStr.repr (String "092" "tmp")) = 7%nat.
Proof. split; reflexivity. Qed.

Example repr_control :
  PyStr.repr (String "007" (String "010" (String "173" EmptyString)))
  = "'\x07\n\xad'".
Proof. reflexivity. Qed.

(* ===================================================================== *)
(** ** Numbers: mixed comparisons and rounding *)
(* ===================================================================== *)

Example lt_int_below : PyFloat.lt_int 79.875 80 = true.
Proof. reflexivity. Qed.

Example lt_int_equal : PyFloat.lt_int 80 80 = false.
Proof. reflexivity. Qed.

Example gt_int_fraction : PyFloat.gt_int 2592000.5 (30 * 86400) = true.
Proof. reflexivity. Qed.

Example gt_int_exact :
  PyFloat.gt_int 1e22 (10 ^ 22 - 1) = true /\
  PyFloat.gt_int 1e22 (10 ^ 22) = false.
Proof. split; reflexivity. Qed.

Example gt_int_negative_days : PyFloat.gt_int (-5) (-1 * 86400) = true.
Proof. reflexivity. Qed.

Example gt_int_nan : PyFloat.gt_int nan 0 = false /\ PyFloat.lt_int nan 0 = false.
Proof. split; reflexivity. Qed.

Example round2_mb_tie_down : round2_mb 131072 = 12 # 100.
Proof. reflexivity. Qed.

Example round2_mb_tie_up : round2_mb (3 * 131072) = 38 # 100.
Proof. reflexivity. Qed.

(** The rounded quotient is an integer nearest to [a / b]. *)
Lemma round_half_even_nearest (a b : Z) :
  0 < b -> 2 * Z.abs (round_half_even a b * b - a) <= b.
Proof.
  intros Hb. unfold round_half_even.
  pose proof (Z.div_mod a b ltac:(lia)) as Hdiv.
  pose proof (Z.mod_pos_bound a b Hb) as Hmod.
  set (q := a / b) in *. set (r := a mod b) in *.
  destruct (2 * r <? b) eqn:H1; [apply Z.ltb_lt in H1 | apply Z.ltb_ge in H1].
  - replace (q * b - a) with (- r) by lia. lia.
  - destruct (b <? 2 * r) eqn:H2;
      [apply Z.ltb_lt in H2 | apply Z.ltb_ge in H2].
    + replace ((q + 1) * b - a) with (b - r) by lia. lia.
    + destruct (Z.even q).
      * replace (q * b - a) with (- r) by lia. lia.
      * replace ((q + 1) * b - a) with (b - r) by lia. lia.
Qed.

(** On a tie the rounded quotient is the even neighbour. *)
Lemma round_half_even_tie (a b : Z) :
  0 < b -> 2 * Z.abs (round_half_even a b * b - a) = b ->
  Z.even (round_half_even a b) = true.
Proof.
  intros Hb. unfold round_half_even.
  pose proof (Z.div_mod a b ltac:(lia)) as Hdiv.
  pose proof (Z.mod_pos_bound a b Hb) as Hmod.
  set (q := a / b) in *. set (r := a mod b) in *.
  destruct (2 * r <? b) eqn:H1; [apply Z.ltb_lt in H1 | apply Z.ltb_ge in H1].
  - replace (q * b - a) with (- r) by lia. lia.
  - destruct (b <? 2 * r) eqn:H2;
      [apply Z.ltb_lt in H2 | apply Z.ltb_ge in H2].
    + replace ((q + 1) * b - a) with (b - r) by lia. lia.
    + destruct (Z.even q) eqn:He; [intros _; exact He |].
      intros _. rewrite Z.even_add, He. reflexivity.
Qed.

(** Below [2^53] an integer is a float. *)
Lemma nearest53_small (n : Z) :
  Z.abs n < 2 ^ 53 -> nearest53 n = (n, 0).
Proof.
  intros H. unfold nearest53.
  destruct (Z.eq_dec (Z.abs n) 0) as [-> | Hz]; [reflexivity |].
  assert (Z.log2 (Z.abs n) < 53) by (apply Z.log2_lt_pow2; lia).
  destruct (Z.leb_spec (Z.log2 (Z.abs n) - 52) 0); [reflexivity | lia].
Qed.

(** [nearest53 n] has at most 53 significant bits and is within half a
    unit of its last place of [n]; half-way between two floats it is the
    one with the even significand. *)
Lemma nearest53_spec (n : Z) :
  0 <= snd (nearest53 n) /\
  Z.abs (fst (nearest53 n)) <= 2 ^ 53 /\
  2 * Z.abs (fst (nearest53 n) * 2 ^ snd (nearest53 n) - n)
  <= 2 ^ snd (nearest53 n) /\
  (2 * Z.abs (fst (nearest53 n) * 2 ^ snd (nearest53 n) - n)
   = 2 ^ snd (nearest53 n) ->
   Z.even (fst (nearest53 n)) = true).
Proof.
  unfold nearest53.
  destruct (Z.leb_spec (Z.log2 (Z.abs n) - 52) 0) as [Hk | Hk]; cbn [fst snd].
  - assert (Z.abs n < 2 ^ 53).
    { destruct (Z.eq_dec (Z.abs n) 0) as [-> | Hz]; [reflexivity |].
      apply Z.log2_lt_pow2; lia. }
    change (2 ^ 0) with 1. rewrite Z.mul_1_r, Z.sub_diag.
    change (Z.abs 0) with 0. lia.
  - set (k := Z.log2 (Z.abs n) - 52) in *.
    assert (0 < 2 ^ k) as Hp by (apply Z.pow_pos_nonneg; lia).
    pose proof (round_half_even_nearest n (2 ^ k) Hp) as Hn.
    assert (Z.abs n < 2 ^ (k + 53)) as Hub.
    { destruct (Z.eq_dec (Z.abs n) 0) as [Hz | Hz];
        [unfold k in Hk; rewrite Hz in Hk; cbn in Hk; lia |].
      apply Z.log2_lt_pow2; unfold k; lia. }
    rewrite Z.pow_add_r in Hub by lia.
    split; [lia |]. split; [| split; [exact Hn |]].
    + set (m := round_half_even n (2 ^ k)) in *. nia.
    + by apply round_half_even_tie.
Qed.

(** Below [2^53] bytes the quotient is exact, and [round2_mb] is the exact
    size in megabytes rounded to hundredths. *)
Lemma round2_mb_small (total : Z) :
  Z.abs total < 2 ^ 53 ->
  round2_mb total = round_half_even (total * 100) 1048576 # 100.
Proof.
  intros H. unfold round2_mb. rewrite nearest53_small by exact H.
  reflexivity.
Qed.

(** Below [2^53] bytes [round2_mb] is within half a hundredth of the size
    in megabytes. *)
Lemma round2_mb_nearest (total : Z) :
  Z.abs total < 2 ^ 53 ->
  exists h, round2_mb total = h # 100 /\
            2 * Z.abs (h * 1048576 - total * 100) <= 1048576.
Proof.
  intros H. rewrite round2_mb_small by exact H.
  eexists. split; [reflexivity |].
  apply (round_half_even_nearest (total * 100) 1048576). lia.
Qed.

(** From [2^53] bytes on the quotient is rounded before [round] sees it:
    [2^53 + 57671] bytes are 8589934592.05499... megabytes, the float is
    8589934592.05500..., and the hundredths differ. *)
Example round2_mb_beyond_2_53 :
  round2_mb (2 ^ 53 + 57671) = 858993459206 # 100 /\
  round_half_even ((2 ^ 53 + 57671) * 100) 1048576 = 858993459205.
Proof. split; reflexivity. Qed.

(** [finite_quotient] draws the line where the quotient stops being a
    float: just below it the quotient is the largest float, at it the
    quotient rounds to infinity. *)
Example finite_quotient_bound :
  finite_quotient (2 ^ 1044 - 2 ^ 990 - 1) = true /\
  sf_pair (binary64_quotient (2 ^ 1044 - 2 ^ 990 - 1))
  = Some (2 ^ 53 - 1, 971) /\
  finite_quotient (2 ^ 1044 - 2 ^ 990) = false /\
  binary64_quotient (2 ^ 1044 - 2 ^ 990) = S754_infinity false.
Proof. repeat split; vm_compute; reflexivity. Qed.

(** [nearest53] scaled by [2^-20] is the quotient that the kernel's
    specification of binary64 arithmetic gives, on both sides of [2^53]. *)
Example nearest53_is_binary64 :
  forallb quotient_agrees
    [0; 1; 131072; 2222981; 2 ^ 53 - 1; 2 ^ 53; 2 ^ 53 + 1; 2 ^ 53 + 57671;
     2 ^ 54 - 1; 2 ^ 54 + 2; 2 ^ 54 + 6; 2 ^ 80 + 12345; 2 ^ 200 + 2 ^ 147;
     2 ^ 200 + 2 ^ 147 + 1; 2 ^ 200 + 3 * 2 ^ 147; - (2 ^ 53 + 57671)]
  = true.
Proof. vm_compute. reflexivity. Qed.

(* ===================================================================== *)
(** ** Health status *)
(* ===================================================================== *)

Lemma lt_int_false (x : float) (n : Z) :
  PyFloat.lt_int x n = false <->
  PyFloat.ge_int x n = true \/ is_nan x = true.
Proof.
  unfold PyFloat.lt_int, PyFloat.ge_int, PyFloat.compare_int, is_nan.
  destruct (Prim2SF x) as [s | s | | s m e]; cbv beta iota zeta;
    repeat match goal with
           | |- context [if ?b then _ else _] => destruct b
           end;
    try match goal with
        | |- context [Z.compare ?a ?b] => destruct (Z.compare a b)
        end;
    cbv beta iota; intuition congruence.
Qed.

Lemma lt_int_true (x : float) (n : Z) :
  PyFloat.lt_int x n = true ->
  PyFloat.ge_int x n = false /\ is_nan x = false.
Proof.
  intros H. pose proof (lt_int_false x n) as F.
  destruct (PyFloat.ge_int x n), (is_nan x); try tauto;
    (assert (PyFloat.lt_int x n = false) by (apply F; tauto)); congruence.
Qed.

(** C4 (as stated, refuted): with the cpu reading at exactly 80 and the
    memory reading at 40, neither reading exceeds 80, yet [health_check]
    answers "WARNING", not "OK". *)
Lemma health_check_at_80_is_warning :
  cpu_percent Sample.at_threshold = 80%float /\
  PyFloat.gt_int (cpu_percent Sample.at_threshold) 80 = false /\
  PyFloat.gt_int (virtual_memory_percent Sample.at_threshold) 80 = false /\
  response_field "status"
    (fst (health_check Sample.text Sample.at_threshold))
  = Some (JStr "WARNING").
Proof. repeat split; vm_compute; reflexivity. Qed.

(** C4 (amended): the handler that the first application object serves at
    GET /health always returns, leaves the world as it was, and reports
    "OK" exactly when both the cpu and the memory reading are below 80;
    it reports "WARNING" exactly when one of them is at least 80 (or is
    not a number). *)
Theorem health_check_status (str_float : float -> string) (w : world) :
  dispatch first_app GET "/health" = Some EpHealthCheck /\
  exists j,
    health_check str_float w = (inr j, w) /\
    (field "status" j = Some (JStr "OK") <->
       PyFloat.lt_int (cpu_percent w) 80 = true /\
       PyFloat.lt_int (virtual_memory_percent w) 80 = true) /\
    (field "status" j = Some (JStr "WARNING") <->
       PyFloat.ge_int (cpu_percent w) 80 = true \/
       PyFloat.ge_int (virtual_memory_percent w) 80 = true \/
       is_nan (cpu_percent w) = true \/
       is_nan (virtual_memory_percent w) = true).
Proof.
  split; [reflexivity |].
  cbv [health_check bind read ret].
  eexists. split; [reflexivity |]. cbn [field assoc].
  rewrite bool_decide_eq_true_2 by reflexivity.
  destruct (PyFloat.lt_int (cpu_percent w) 80) eqn:Hc;
    destruct (PyFloat.lt_int (virtual_memory_percent w) 80) eqn:Hm; simpl.
  - apply lt_int_true in Hc, Hm. destruct Hc as [Hc1 Hc2], Hm as [Hm1 Hm2].
    rewrite Hc1, Hc2, Hm1, Hm2. split; split; try tauto; try discriminate.
    intros [? | [? | [? | ?]]]; discriminate.
  - apply lt_int_false in Hm. split; split; try discriminate; try tauto.
    intros [_ ?]; discriminate.
  - apply lt_int_false in Hc. split; split; try discriminate; try tauto.
    intros [? _]; discriminate.
  - apply lt_int_false in Hc. split; split; try discriminate; try tauto.
    intros [? _]; discriminate.
Qed.

(** A request is answered by a route of the object with its method and
    path. *)
Lemma dispatch_Some (app : fastapi) m p e :
  dispatch app m p = Some e ->
  exists r, In r app /\ route_method r = m /\ route_path r = p /\
            route_endpoint r = e.
Proof.
  induction app as [| r rest IH]; [discriminate |].
  cbn [dispatch]. destruct (_ && _) eqn:Hb.
  - apply andb_true_iff in Hb as [Hm%bool_decide_eq_true Hp%bool_decide_eq_true].
    intros [= <-]. exists r. cbn. tauto.
  - intros Hd. destruct (IH Hd) as (r' & Hin & H). exists r'. cbn. tauto.
Qed.

(** C5 (as stated, refuted): the exported object also serves GET /docs,
    one of the routes that every [FastAPI] object is born with; and on a
    host whose root filesystem reports a total of 0 the second [health]
    does not answer "OK": the division raises. *)
Lemma exported_app_serves_docs_and_health_can_raise :
  dispatch exported_app GET "/docs" = Some EpSwaggerUi /\
  du_total (shutil_disk_usage Sample.no_blocks "/") = 0 /\
  health Sample.text Sample.text Sample.quotient Sample.no_blocks
  = (inl (Exn "ZeroDivisionError" "division by zero"), Sample.no_blocks).
Proof. repeat split. Qed.

(** C5 (amended): once the module has run, [app] names a fresh object:
    besides the documentation routes that [FastAPI()] sets up by itself,
    its only routes are GET /health, served by the second [health], and
    GET /; no handler registered before the rebinding is reachable.  That
    [health] never reports "WARNING": when the root filesystem's total is
    not 0 it returns with status "OK" whatever the cpu, memory and disk
    readings are, and when the total is 0 it raises [ZeroDivisionError]. *)
Theorem exported_app_health_always_ok :
  exported_app
  = fresh_app ++ [Route GET "/health" EpHealth; Route GET "/" EpRoot] /\
  (forall m p e,
     dispatch exported_app m p = Some e <->
     (m = GET /\ p = "/health" /\ e = EpHealth) \/
     (m = GET /\ p = "/" /\ e = EpRoot) \/
     dispatch fresh_app m p = Some e) /\
  (forall m p e,
     dispatch fresh_app m p = Some e ->
     e = EpOpenapi \/ e = EpSwaggerUi \/ e = EpSwaggerRedirect
     \/ e = EpRedoc) /\
  (forall str_float format_1f int_truediv w,
     response_field "status"
       (fst (health str_float format_1f int_truediv w))
     <> Some (JStr "WARNING") /\
     (du_total (shutil_disk_usage w "/") <> 0 ->
      exists j,
        health str_float format_1f int_truediv w = (inr j, w) /\
        field "status" j = Some (JStr "OK")) /\
     (du_total (shutil_disk_usage w "/") = 0 ->
      health str_float format_1f int_truediv w
      = (inl (Exn "ZeroDivisionError" "division by zero"), w))).
Proof.
  split; [reflexivity |].
  assert (forall m p e,
            dispatch fresh_app m p = Some e ->
            (e = EpOpenapi \/ e = EpSwaggerUi \/ e = EpSwaggerRedirect
             \/ e = EpRedoc) /\
            p <> "/health" /\ p <> "/") as Hfresh.
  { intros m p e Hd.
    destruct (dispatch_Some _ _ _ _ Hd) as (r & Hin & _ & <- & <-).
    unfold fresh_app in Hin. cbn [In] in Hin.
    repeat (destruct Hin as [<- | Hin];
            [split; [cbn; tauto | split; discriminate] |]).
    destruct Hin. }
  split; [| split].
  - intros m p e.
    change exported_app
      with (fresh_app ++ [Route GET "/health" EpHealth; Route GET "/" EpRoot]).
    destruct (dispatch fresh_app m p) as [e' |] eqn:Hd.
    + assert (dispatch (fresh_app ++ [Route GET "/health" EpHealth;
                                      Route GET "/" EpRoot]) m p = Some e')
        as ->.
      { revert Hd. generalize fresh_app. intros l.
        induction l as [| r l IH]; [discriminate |].
        cbn [app dispatch]. destruct (_ && _); [done | exact IH]. }
      destruct (Hfresh m p e' Hd) as (_ & Hh & Hr).
      split; [intros [= <-]; tauto |].
      intros [(_ & -> & _) | [(_ & -> & _) | H]]; [done | done | exact H].
    + assert (dispatch (fresh_app ++ [Route GET "/health" EpHealth;
                                      Route GET "/" EpRoot]) m p
              = dispatch [Route GET "/health" EpHealth; Route GET "/" EpRoot]
                         m p) as ->.
      { revert Hd. generalize fresh_app. intros l.
        induction l as [| r l IH]; [reflexivity |].
        cbn [app dispatch]. destruct (_ && _); [discriminate | exact IH]. }
      cbn [dispatch route_method route_path route_endpoint].
      repeat case_bool_decide; simpl; split;
        try (intros [(-> & -> & ->) | [(-> & -> & ->) | ?]]);
        try (intros [= <-]); subst; try tauto; try congruence;
        try discriminate.
  - intros m p e Hd. by destruct (Hfresh m p e Hd).
  - intros sf f1 td w.
    unfold health, bind, read, truediv, ret, raise.
    case_bool_decide as Hz; simpl.
    + split; [discriminate |]. split; [tauto | reflexivity].
    + split; [discriminate |]. split; [| tauto].
      intros _. eexists. split; reflexivity.
Qed.

(** The handler answers "OK" in the calm sample world, whose root
    filesystem has a non-zero total. *)
Lemma exported_app_health_always_ok_witness :
  exists j,
    health Sample.text Sample.text Sample.quotient Sample.calm
    = (inr j, Sample.calm) /\
    field "status" j = Some (JStr "OK").
Proof.
  destruct exported_app_health_always_ok as (_ & _ & _ & H).
  apply (H Sample.text Sample.text Sample.quotient Sample.calm).
  vm_compute. discriminate.
Defined.

(* ===================================================================== *)
(** ** Paths and directory listings *)
(* ===================================================================== *)

Lemma append_cons (x : ascii) (a b : string) :
  String x a +:+ b = String x (a +:+ b).
Proof. reflexivity. Qed.

Lemma append_assoc (a b c : string) : (a +:+ b) +:+ c = a +:+ (b +:+ c).
Proof.
  induction a as [| x a IH]; [reflexivity |].
  rewrite !append_cons. by f_equal.
Qed.

Lemma append_cancel (p a b : string) : p +:+ a = p +:+ b -> a = b.
Proof. apply String.app_inj. Qed.

Lemma strip_prefix_Some (p s r : string) :
  PyStr.strip_prefix p s = Some r <-> s = p +:+ r.
Proof.
  revert s. induction p as [| a p IH]; intros s; simpl.
  - change ("" +:+ r) with r. split; congruence.
  - rewrite append_cons. destruct s as [| b s]; [split; discriminate |].
    case_bool_decide as Hab.
    + subst b. rewrite IH. split; [intros -> | intros [= ->]]; reflexivity.
    + split; [discriminate | intros [= ? ?]; congruence].
Qed.

Lemma no_sep_not_absolute (n : string) :
  PyStr.has_sep n = false -> PyStr.starts_with_sep n = false.
Proof.
  destruct n as [| c n]; simpl; [reflexivity |].
  case_bool_decide as Hc; simpl; [discriminate |].
  intros _. destruct c as [[] [] [] [] [] [] [] []]; try reflexivity.
  exfalso. apply Hc. reflexivity.
Qed.

Lemma entry_name_no_sep (n : string) :
  Os.entry_name n = true -> PyStr.has_sep n = false.
Proof.
  unfold Os.entry_name. intros H.
  apply andb_true_iff in H as [_ H]. by apply negb_true_iff in H.
Qed.

(** Joining a folder with a listed name puts the folder's prefix before
    the name. *)
Lemma path_join_entry (folder n : string) :
  Os.entry_name n = true ->
  Os.path_join folder n = Os.join_prefix folder +:+ n.
Proof.
  intros Hn. unfold Os.path_join, Os.join_prefix.
  rewrite (no_sep_not_absolute n (entry_name_no_sep n Hn)).
  destruct (bool_decide (folder = "") || PyStr.ends_with_sep folder);
    [reflexivity | by rewrite append_assoc].
Qed.

Lemma path_join_inj (folder n1 n2 : string) :
  Os.entry_name n1 = true -> Os.entry_name n2 = true ->
  Os.path_join folder n1 = Os.path_join folder n2 -> n1 = n2.
Proof.
  intros H1 H2. rewrite !path_join_entry by assumption. apply append_cancel.
Qed.

Lemma NoDup_omap_inj {A B} (f : A -> option B) (l : list A) :
  NoDup l ->
  (forall x y z, x ∈ l -> y ∈ l -> f x = Some z -> f y = Some z -> x = y) ->
  NoDup (omap f l).
Proof.
  induction 1 as [| x l Hx Hl IH]; intros Hinj; simpl; [constructor |].
  destruct (f x) as [z |] eqn:Hfx.
  - constructor.
    + rewrite list_elem_of_omap. intros (y & Hy & Hfy).
      apply Hx. rewrite (Hinj x y z); auto; set_solver.
    + apply IH. intros. eapply Hinj; eauto; set_solver.
  - apply IH. intros. eapply Hinj; eauto; set_solver.
Qed.

(** The listing of a folder holds exactly the entry names under which the
    filesystem has a node. *)
Lemma filter_none {A} (P : A -> Prop) `{forall x, Decision (P x)}
    (l : list A) :
  (forall x, x ∈ l -> ~ P x) -> filter P l = [].
Proof.
  intros Hl. destruct (filter P l) as [| x l'] eqn:Hf; [reflexivity |].
  assert (x ∈ filter P l) as Hx by (rewrite Hf; left).
  apply list_elem_of_filter in Hx as [HP Hin]. by destruct (Hl x Hin).
Qed.

Lemma filter_all {A} (P : A -> Prop) `{forall x, Decision (P x)}
    (l : list A) :
  (forall x, x ∈ l -> P x) -> filter P l = l.
Proof.
  induction l as [| x l IH]; intros Hl; [reflexivity |].
  rewrite filter_cons, decide_True by (apply Hl; left).
  f_equal. apply IH. intros y Hy. apply Hl. by right.
Qed.

Lemma remove_dups_NoDup {A} `{EqDecision A} (l : list A) :
  NoDup l -> remove_dups l = l.
Proof.
  induction 1 as [| x l Hx Hl IH]; [reflexivity |].
  cbn [remove_dups]. destruct (decide_rel elem_of x l); [contradiction |].
  by rewrite IH.
Qed.

Lemma name_in_Some (folder p n : string) :
  Os.name_in folder p = Some n <->
  Os.entry_name n = true /\ p = Os.path_join folder n.
Proof.
  unfold Os.name_in. split.
  - destruct (PyStr.strip_prefix (Os.join_prefix folder) p) as [n' |] eqn:Hs;
      [| discriminate].
    destruct (Os.entry_name n') eqn:He; [| discriminate].
    intros [= <-]. apply strip_prefix_Some in Hs.
    split; [assumption |]. by rewrite path_join_entry.
  - intros [He ->]. rewrite path_join_entry by assumption.
    rewrite (proj2 (strip_prefix_Some _ _ n) eq_refl). by rewrite He.
Qed.

Lemma present_names_spec {A} (m : gmap string A) (folder n : string) :
  n ∈ Os.present_names m folder <->
  Os.entry_name n = true /\ is_Some (m !! Os.path_join folder n).
Proof.
  unfold Os.present_names. rewrite list_elem_of_omap. split.
  - intros ([p nd] & Hin & Hf).
    apply elem_of_map_to_list in Hin.
    apply name_in_Some in Hf as [He ->]. eauto.
  - intros (He & nd & Hnd). exists (Os.path_join folder n, nd). split.
    + by apply elem_of_map_to_list.
    + by apply name_in_Some.
Qed.

Lemma present_names_NoDup {A} (m : gmap string A) (folder : string) :
  NoDup (Os.present_names m folder).
Proof.
  unfold Os.present_names. apply NoDup_omap_inj; [apply NoDup_map_to_list |].
  intros [p1 d1] [p2 d2] n H1 H2 Hf1 Hf2.
  apply elem_of_map_to_list in H1, H2.
  apply name_in_Some in Hf1 as [_ ->]. apply name_in_Some in Hf2 as [_ ->].
  rewrite H1 in H2. by injection H2 as ->.
Qed.

(** Ordering a listing neither adds nor drops a name. *)
Lemma order_names_spec (pref present : list string) (n : string) :
  n ∈ Os.order_names pref present <-> n ∈ present.
Proof.
  unfold Os.order_names.
  rewrite elem_of_app, !list_elem_of_filter, elem_of_remove_dups.
  destruct (decide (n ∈ pref)); tauto.
Qed.

Lemma order_names_NoDup (pref present : list string) :
  NoDup present -> NoDup (Os.order_names pref present).
Proof.
  intros Hnd. unfold Os.order_names. apply NoDup_app. split; [| split].
  - apply NoDup_filter, NoDup_remove_dups.
  - intros n. rewrite !list_elem_of_filter, elem_of_remove_dups. tauto.
  - by apply NoDup_filter.
Qed.

(** Without a preferred order the listing is the directory's own. *)
Lemma order_names_nil (present : list string) :
  Os.order_names [] present = present.
Proof.
  unfold Os.order_names. cbn [remove_dups]. rewrite filter_nil.
  cbn [app]. apply filter_all. intros n _. apply not_elem_of_nil.
Qed.

(** Any order of the names can be the listing's. *)
Lemma order_names_perm (pref present : list string) :
  NoDup pref -> (forall n, n ∈ pref <-> n ∈ present) ->
  Os.order_names pref present = pref.
Proof.
  intros Hnd Hiff. unfold Os.order_names.
  rewrite remove_dups_NoDup by assumption.
  rewrite (filter_none (fun n => n ∉ pref) present)
    by (intros n Hn Hnot; apply Hnot, Hiff, Hn).
  rewrite app_nil_r. apply filter_all. intros n Hn. by apply Hiff.
Qed.

Lemma dir_names_spec (m : gmap string node) (folder n : string) :
  n ∈ Os.dir_names m folder <->
  Os.entry_name n = true /\ is_Some (m !! Os.path_join folder n).
Proof.
  unfold Os.dir_names. by rewrite order_names_spec, present_names_spec.
Qed.

Lemma dir_names_entry (m : gmap string node) (folder n : string) :
  n ∈ Os.dir_names m folder -> Os.entry_name n = true.
Proof. intros H. by apply dir_names_spec in H as [? _]. Qed.

(** A listing names nothing twice. *)
Lemma dir_names_NoDup (m : gmap string node) (folder : string) :
  NoDup (Os.dir_names m folder).
Proof. apply order_names_NoDup, present_names_NoDup. Qed.

Lemma is_dir_inv (m : gmap string node) (p : string) :
  is_dir m p = true ->
  exists d, m !! p = Some (Dir d) /\ d_list_error d = None.
Proof.
  unfold is_dir. destruct (m !! p) as [[d | f] |]; try discriminate.
  destruct (d_list_error d) eqn:Hl; [discriminate |]. eauto.
Qed.

(** A directory that may be listed exists, and [os.listdir] returns its
    names. *)
Lemma path_exists_dir (p : string) (w : world) :
  is_dir (nodes w) p = true -> Os.path_exists p w = (inr true, w).
Proof.
  intros (d & Hd & _)%is_dir_inv. unfold Os.path_exists.
  by rewrite Hd, bool_decide_eq_true_2 by eauto.
Qed.

Lemma listdir_run (p : string) (w : world) :
  is_dir (nodes w) p = true ->
  Os.listdir p w = (inr (Os.dir_names (nodes w) p), w).
Proof.
  intros (d & Hd & Hl)%is_dir_inv. unfold Os.listdir. by rewrite Hd, Hl.
Qed.

(* ===================================================================== *)
(** ** Computations that leave the world alone *)
(* ===================================================================== *)

Definition read_only {A} (c : io A) : Prop := forall w, snd (c w) = w.

Lemma read_only_ret {A} (a : A) : read_only (ret a).
Proof. intros w. reflexivity. Qed.

Lemma read_only_bind {A B} (c : io A) (k : A -> io B) :
  read_only c -> (forall a, read_only (k a)) -> read_only (bind c k).
Proof.
  intros Hc Hk w. unfold bind. specialize (Hc w).
  destruct (c w) as [[e | a] w']; simpl in *; subst w'; [reflexivity |].
  apply Hk.
Qed.

Lemma read_only_for_each {A S} (l : list A) (body : S -> A -> io S) :
  (forall acc x, read_only (body acc x)) ->
  forall acc, read_only (for_each l body acc).
Proof.
  intros Hbody. induction l as [| x l IH]; intros acc; simpl.
  - apply read_only_ret.
  - apply read_only_bind; [apply Hbody | intros acc'; apply IH].
Qed.

Lemma read_only_path_exists p : read_only (Os.path_exists p).
Proof. intros w. reflexivity. Qed.

Lemma read_only_path_isfile p : read_only (Os.path_isfile p).
Proof. intros w. reflexivity. Qed.

Lemma read_only_stat p : read_only (Os.stat p).
Proof. intros w. unfold Os.stat. by destruct (nodes w !! p) as [[] |]. Qed.

Lemma read_only_listdir p : read_only (Os.listdir p).
Proof.
  intros w. unfold Os.listdir.
  destruct (nodes w !! p) as [[d | f] |]; [| reflexivity ..].
  by destruct (d_list_error d).
Qed.

Lemma read_only_time_time : read_only Os.time_time.
Proof. intros w. reflexivity. Qed.

Create HintDb read_only.
#[local] Hint Resolve read_only_ret read_only_path_exists
  read_only_path_isfile read_only_stat read_only_listdir
  read_only_time_time : read_only.

(** Peels a computation apart along its binds and branches; the leaves are
    left to the hints. *)
Ltac read_only_tac :=
  repeat first
    [ solve [auto with read_only]
    | apply read_only_for_each; intros ? ?
    | apply read_only_bind; [| intros ?]
    | match goal with
      | |- read_only (if ?b then _ else _) => destruct b
      end ].

Lemma read_only_preview_step folder days now acc f :
  read_only (preview_step folder days now acc f).
Proof.
  unfold preview_step, Os.path_getmtime, Os.path_getsize. read_only_tac.
Qed.

(** C9: previewing is read-only.  Whatever the folder and the number of
    days, and whether the handler returns a listing, returns an error
    object or raises, the world after it (the filesystem with it) is the
    world before it. *)
Theorem preview_logs_read_only (folder : string) (days : Z) (w : world) :
  snd (preview_logs folder days w) = w /\
  nodes (snd (preview_logs folder days w)) = nodes w.
Proof.
  assert (read_only (preview_logs folder days)) as H.
  { unfold preview_logs. pose proof read_only_preview_step.
    read_only_tac. }
  split; [apply H | by rewrite H].
Qed.

(* ===================================================================== *)
(** ** The two folder loops *)
(* ===================================================================== *)

Lemma aged_files_spec (w : world) (folder : string) (days : Z) (n : string) :
  n ∈ aged_files w folder days <->
  Os.entry_name n = true /\
  exists f, nodes w !! Os.path_join folder n = Some (Reg f) /\
            older (clock w) (st_mtime f) days = true.
Proof.
  unfold aged_files. rewrite list_elem_of_filter, dir_names_spec.
  unfold aged, file_at.
  destruct (nodes w !! Os.path_join folder n) as [[d | f] |] eqn:Hn.
  - split; [intros [? _]; discriminate | intros (_ & f & ? & _); discriminate].
  - split.
    + intros (Ho & He & _). eauto.
    + intros (He & f' & [= <-] & Ho). eauto.
  - split; [intros [? _]; discriminate | intros (_ & f & ? & _); discriminate].
Qed.


Lemma preview_step_run folder days now acc n w :
  preview_step folder days now acc n w =
  (inr (if aged (nodes w) folder days now n
        then Scan (listed acc ++ [preview_entry n (size_at (nodes w) folder n)])
                  (total_space acc + size_at (nodes w) folder n)
        else acc), w).
Proof.
  unfold preview_step, aged, size_at, file_at.
  cbv [bind ret Os.path_isfile Os.path_getmtime Os.path_getsize Os.stat is_reg].
  destruct (nodes w !! Os.path_join folder n) as [[d | f] |] eqn:Hn;
    cbv beta iota; try reflexivity.
  rewrite Hn. cbn [fst snd].
  destruct (older now (st_mtime f) days); [| reflexivity].
  rewrite Hn. reflexivity.
Qed.

Lemma preview_loop folder days now w (ns : list string) : forall acc,
  for_each ns (preview_step folder days now) acc w =
  (inr (Scan (listed acc ++
                map (fun n => preview_entry n (size_at (nodes w) folder n))
                    (filter (fun n => aged (nodes w) folder days now n = true)
                            ns))
             (total_space acc +
                sum_sizes (nodes w) folder
                  (filter (fun n => aged (nodes w) folder days now n = true)
                          ns))),
   w).
Proof.
  induction ns as [| n ns IH]; intros acc.
  - cbn. rewrite app_nil_r, Z.add_0_r. by destruct acc.
  - cbn [for_each]. unfold bind at 1. rewrite preview_step_run, IH.
    rewrite filter_cons.
    destruct (aged (nodes w) folder days now n) eqn:Ha.
    + rewrite decide_True by reflexivity. cbn [listed total_space map sum_sizes foldr].
      rewrite <- app_assoc. do 3 f_equal. unfold sum_sizes. lia.
    + rewrite decide_False by discriminate. reflexivity.
Qed.

(** On a folder that may be listed the preview returns its report. *)
Lemma preview_logs_run folder days w :
  is_dir (nodes w) folder = true ->
  preview_logs folder days w =
  (inr (JObj
     [("files_to_delete",
       JArr (map (fun n => preview_entry n (size_at (nodes w) folder n))
                 (aged_files w folder days)));
      ("total_space_to_free_mb",
       JNum (round2_mb
               (sum_sizes (nodes w) folder (aged_files w folder days))));
      ("delete_url", JStr (delete_url folder days))]), w).
Proof.
  intros Hdir. unfold preview_logs.
  unfold bind at 1. rewrite path_exists_dir by assumption. cbn [negb].
  unfold bind at 1. unfold Os.time_time.
  unfold bind at 1. rewrite listdir_run by assumption.
  unfold bind at 1. rewrite preview_loop. reflexivity.
Qed.

(** On a path that is a regular file both folder handlers raise what
    [os.listdir] raises; on a missing path both return the same error
    object. *)
Lemma preview_logs_not_dir folder days w f :
  nodes w !! folder = Some (Reg f) ->
  exists e, preview_logs folder days w = (inl e, w).
Proof.
  intros Hf. unfold preview_logs.
  unfold bind at 1. unfold Os.path_exists.
  rewrite Hf, bool_decide_eq_true_2 by eauto. cbn [negb].
  unfold bind at 1. unfold Os.time_time.
  unfold bind at 1. unfold Os.listdir. rewrite Hf. eauto.
Qed.

Lemma delete_logs_not_dir folder days w f :
  nodes w !! folder = Some (Reg f) ->
  exists e, delete_logs folder days "yes" w = (inl e, w).
Proof.
  intros Hf. unfold delete_logs.
  rewrite bool_decide_eq_true_2 by reflexivity. cbn [negb].
  unfold bind at 1. unfold Os.path_exists.
  rewrite Hf, bool_decide_eq_true_2 by eauto. cbn [negb].
  unfold bind at 1. unfold Os.time_time.
  unfold bind at 1. unfold Os.listdir. rewrite Hf. eauto.
Qed.

Lemma path_exists_missing p w :
  nodes w !! p = None -> Os.path_exists p w = (inr false, w).
Proof.
  intros Hp. unfold Os.path_exists.
  rewrite bool_decide_eq_false_2; [reflexivity |].
  rewrite Hp. by intros [? ?].
Qed.

Lemma preview_logs_missing folder days w :
  nodes w !! folder = None ->
  preview_logs folder days w
  = (inr (error_response ("Folder not found: " +:+ folder)), w).
Proof.
  intros Hp. unfold preview_logs. unfold bind at 1.
  rewrite path_exists_missing by assumption. reflexivity.
Qed.

Lemma delete_logs_missing folder days w :
  nodes w !! folder = None ->
  delete_logs folder days "yes" w
  = (inr (error_response ("Folder not found: " +:+ folder)), w).
Proof.
  intros Hp. unfold delete_logs.
  rewrite bool_decide_eq_true_2 by reflexivity. cbn [negb].
  unfold bind at 1. rewrite path_exists_missing by assumption. reflexivity.
Qed.




Lemma set_nodes_nodes m w : nodes (set_nodes m w) = m.
Proof. reflexivity. Qed.

Lemma set_nodes_set_nodes m1 m2 w :
  set_nodes m2 (set_nodes m1 w) = set_nodes m2 w.
Proof. reflexivity. Qed.

Lemma set_nodes_same w : set_nodes (nodes w) w = w.
Proof. by destruct w. Qed.

Lemma delete_step_run folder days now acc n w :
  delete_step folder days now acc n w =
  if aged (nodes w) folder days now n then
    if removable (nodes w) folder n then
      (inr (Scan (listed acc ++ [deletion_entry (nodes w) folder n])
                 (total_space acc + size_at (nodes w) folder n)),
       set_nodes (Os.unlink (Os.path_join folder n) (clock w) (nodes w)) w)
    else
      (inr (Scan (listed acc ++ [deletion_entry (nodes w) folder n])
                 (total_space acc)), w)
  else (inr acc, w).
Proof.
  unfold delete_step, aged, removable, deletion_entry, size_at, file_at.
  cbv [bind ret try_except Os.path_isfile Os.path_getmtime Os.path_getsize
       Os.stat Os.remove is_reg failed_entry].
  destruct (nodes w !! Os.path_join folder n) as [[d | f] |] eqn:Hn;
    cbv beta iota; try reflexivity.
  rewrite Hn. cbn [fst snd].
  destruct (older now (st_mtime f) days); [| reflexivity].
  rewrite !Hn.
  destruct (remove_error f) as [msg |]; reflexivity.
Qed.

(** What [unlink] leaves under each path. *)
Lemma unlink_lookup p now (m : gmap string node) q :
  Os.unlink p now m !! q
  = (fun nd => if bool_decide (is_Some (Os.name_in q p))
               then Os.touch now nd else nd) <$> delete p m !! q.
Proof.
  unfold Os.unlink. rewrite map_lookup_imap.
  by destruct (delete p m !! q).
Qed.

Lemma unlink_lookup_same p now (m : gmap string node) :
  Os.unlink p now m !! p = None.
Proof. by rewrite unlink_lookup, lookup_delete_eq. Qed.

(** The regular files under other paths are as they were. *)
Lemma unlink_lookup_Reg p now (m : gmap string node) q f :
  q <> p ->
  Os.unlink p now m !! q = Some (Reg f) <-> m !! q = Some (Reg f).
Proof.
  intros Hne. rewrite unlink_lookup, lookup_delete_ne by congruence.
  destruct (m !! q) as [[d | f'] |]; cbn; [| | done];
    case_bool_decide; cbn; split; congruence.
Qed.

Lemma unlink_lookup_None p now (m : gmap string node) q :
  q <> p -> Os.unlink p now m !! q = None <-> m !! q = None.
Proof.
  intros Hne. rewrite unlink_lookup, lookup_delete_ne by congruence.
  by destruct (m !! q).
Qed.


(** Removing [folder/n] leaves the other listed names as they were. *)
Lemma file_at_unlink_other m now folder n n' :
  Os.entry_name n = true -> Os.entry_name n' = true -> n <> n' ->
  file_at (Os.unlink (Os.path_join folder n) now m) folder n'
  = file_at m folder n'.
Proof.
  intros Hn Hn' Hne. unfold file_at.
  assert (Os.path_join folder n' <> Os.path_join folder n) as Hp.
  { intros Heq. apply Hne. symmetry. by apply (path_join_inj folder). }
  rewrite unlink_lookup, lookup_delete_ne by congruence.
  destruct (m !! Os.path_join folder n') as [[d | f'] |]; cbn; [| | done];
    by case_bool_decide.
Qed.

Section Agreement.

(** Two filesystems that hold the same files under the names of a list
    give that list the same scan. *)
Variables (m1 m2 : gmap string node) (folder : string) (days : Z)
          (now : float).

Local Abbreviation agree := (agree m1 m2 folder).

Lemma agree_cons n ns : agree (n :: ns) -> agree ns.
Proof. intros H n' Hn'. apply H. by right. Qed.

Lemma agree_aged ns :
  agree ns ->
  filter (fun n => aged m1 folder days now n = true) ns
  = filter (fun n => aged m2 folder days now n = true) ns.
Proof.
  induction ns as [| n ns IH]; intros H; [reflexivity |].
  rewrite !filter_cons, (IH (agree_cons _ _ H)). unfold aged.
  rewrite (H n) by left. reflexivity.
Qed.

Lemma agree_doomed ns :
  agree ns -> doomed m1 folder days now ns = doomed m2 folder days now ns.
Proof.
  unfold doomed.
  induction ns as [| n ns IH]; intros H; [reflexivity |].
  rewrite !filter_cons, (IH (agree_cons _ _ H)). unfold aged, removable.
  rewrite (H n) by left. reflexivity.
Qed.

Lemma agree_entries ns :
  agree ns ->
  map (deletion_entry m1 folder) ns = map (deletion_entry m2 folder) ns.
Proof.
  induction ns as [| n ns IH]; intros H; [reflexivity |].
  cbn [map]. rewrite (IH (agree_cons _ _ H)). unfold deletion_entry.
  rewrite (H n) by left. reflexivity.
Qed.

Lemma agree_sizes ns :
  agree ns -> sum_sizes m1 folder ns = sum_sizes m2 folder ns.
Proof.
  induction ns as [| n ns IH]; intros H; [reflexivity |].
  cbn [sum_sizes foldr]. fold (sum_sizes m1 folder ns).
  fold (sum_sizes m2 folder ns). rewrite (IH (agree_cons _ _ H)).
  unfold size_at. rewrite (H n) by left. reflexivity.
Qed.

Lemma agree_filter (P : string -> Prop) `{forall n, Decision (P n)} ns :
  agree ns -> agree (filter P ns).
Proof. intros Ha n Hn. apply Ha. by apply list_elem_of_filter in Hn as [_ ?]. Qed.

End Agreement.

Lemma doomed_cons m folder days now n ns :
  doomed m folder days now (n :: ns) =
  if aged m folder days now n && removable m folder n
  then n :: doomed m folder days now ns
  else doomed m folder days now ns.
Proof.
  unfold doomed. rewrite filter_cons.
  destruct (aged m folder days now n), (removable m folder n); cbn [andb];
    first [ rewrite decide_True by done
          | rewrite decide_False by (intros [? ?]; discriminate) ];
    reflexivity.
Qed.

Lemma aged_cons m folder days now n ns :
  filter (fun n => aged m folder days now n = true) (n :: ns) =
  if aged m folder days now n
  then n :: filter (fun n => aged m folder days now n = true) ns
  else filter (fun n => aged m folder days now n = true) ns.
Proof.
  rewrite filter_cons. destruct (aged m folder days now n);
    [rewrite decide_True by done | rewrite decide_False by discriminate];
    reflexivity.
Qed.

Lemma agree_after_delete m now folder n ns :
  Os.entry_name n = true -> (forall n', n' ∈ ns -> Os.entry_name n' = true) ->
  n ∉ ns ->
  agree (Os.unlink (Os.path_join folder n) now m) m folder ns.
Proof.
  intros Hn Hns Hnot n' Hn'. apply file_at_unlink_other; auto.
  intros ->. contradiction.
Qed.

(** The deleting loop over a listing without repeats: every aged file gets
    its entry, in order; the removable ones are removed and counted; the
    loop never raises. *)
Lemma delete_loop folder days now (ns : list string) : forall acc w,
  NoDup ns -> (forall n, n ∈ ns -> Os.entry_name n = true) ->
  for_each ns (delete_step folder days now) acc w =
  (inr (Scan (listed acc ++
                map (deletion_entry (nodes w) folder)
                    (filter (fun n => aged (nodes w) folder days now n = true)
                            ns))
             (total_space acc +
                sum_sizes (nodes w) folder
                  (doomed (nodes w) folder days now ns))),
   set_nodes (remove_paths folder (clock w)
                           (doomed (nodes w) folder days now ns)
                           (nodes w)) w).
Proof.
  induction ns as [| n ns IH]; intros acc w Hnd Hent.
  - cbn. rewrite app_nil_r, Z.add_0_r, set_nodes_same. by destruct acc.
  - apply NoDup_cons in Hnd as [Hnot Hnd].
    assert (Os.entry_name n = true) as Hn by (apply Hent; left).
    assert (forall n', n' ∈ ns -> Os.entry_name n' = true) as Hns
      by (intros; apply Hent; by right).
    cbn [for_each]. unfold bind at 1. rewrite delete_step_run.
    rewrite aged_cons, doomed_cons.
    destruct (aged (nodes w) folder days now n) eqn:Ha; cbn [andb];
      [destruct (removable (nodes w) folder n) eqn:Hr |].
    + rewrite IH by assumption. rewrite set_nodes_nodes, set_nodes_set_nodes.
      pose proof (agree_after_delete (nodes w) (clock w) folder n ns
                    Hn Hns Hnot) as Hag.
      change (clock (set_nodes _ w)) with (clock w).
      rewrite (agree_aged _ _ _ days now ns Hag).
      rewrite (agree_doomed _ _ _ days now ns Hag).
      rewrite (agree_entries _ _ folder _ (agree_filter _ _ _ _ _ Hag)).
      rewrite (agree_sizes _ _ folder (doomed (nodes w) folder days now ns))
        by (unfold doomed; apply agree_filter, Hag).
      cbn [listed total_space map sum_sizes foldr remove_paths foldl].
      rewrite <- app_assoc. do 3 f_equal. unfold sum_sizes. lia.
    + rewrite IH by assumption.
      cbn [listed total_space map]. rewrite <- app_assoc. reflexivity.
    + rewrite IH by assumption. reflexivity.
Qed.

(* ===================================================================== *)
(** ** The deleting handler on a folder that may be listed *)
(* ===================================================================== *)


(** With a confirmation that lowers to ["yes"] and a folder to list, the
    handler returns its report and leaves the filesystem without the
    doomed files. *)
Lemma delete_logs_run folder days confirm w :
  PyStr.lower confirm = "yes" ->
  is_dir (nodes w) folder = true ->
  delete_logs folder days confirm w =
  (inr (JObj
     [("deleted_files",
       JArr (map (deletion_entry (nodes w) folder)
                 (aged_files w folder days)));
      ("space_freed_mb",
       JNum (round2_mb
               (sum_sizes (nodes w) folder
                  (doomed (nodes w) folder days (clock w)
                          (Os.dir_names (nodes w) folder)))));
      ("folder", JStr folder);
      ("days", JInt days)]),
   set_nodes (remove_paths folder (clock w)
                (doomed (nodes w) folder days (clock w)
                        (Os.dir_names (nodes w) folder))
                (nodes w)) w).
Proof.
  intros Hyes Hdir. unfold delete_logs.
  rewrite bool_decide_eq_true_2 by assumption. cbn [negb].
  unfold bind at 1. rewrite path_exists_dir by assumption. cbn [negb].
  unfold bind at 1. unfold Os.time_time.
  unfold bind at 1. rewrite listdir_run by assumption.
  unfold bind at 1.
  rewrite delete_loop by (apply dir_names_NoDup || apply dir_names_entry).
  reflexivity.
Qed.

Lemma remove_paths_cons folder now n l m :
  remove_paths folder now (n :: l) m
  = remove_paths folder now l (Os.unlink (Os.path_join folder n) now m).
Proof. reflexivity. Qed.

(** After the removals a removed path names nothing, and the other paths
    name the regular files they named. *)
Lemma remove_paths_lookup_None folder now (l : list string) : forall m p,
  remove_paths folder now l m !! p = None <->
  p ∈ (Os.path_join folder <$> l) \/ m !! p = None.
Proof.
  induction l as [| n l IH]; intros m p.
  - cbn. split; [by right | intros [?%elem_of_nil | ?]; done].
  - rewrite remove_paths_cons, IH, fmap_cons, elem_of_cons.
    destruct (decide (p = Os.path_join folder n)) as [-> | Hne].
    + rewrite unlink_lookup_same. tauto.
    + rewrite unlink_lookup_None by assumption. tauto.
Qed.

Lemma remove_paths_lookup_Reg folder now (l : list string) : forall m p f,
  remove_paths folder now l m !! p = Some (Reg f) <->
  (p ∉ (Os.path_join folder <$> l)) /\ m !! p = Some (Reg f).
Proof.
  induction l as [| n l IH]; intros m p f.
  - cbn. split; [intros ?; split; [apply not_elem_of_nil | done] |].
    by intros [_ ?].
  - rewrite remove_paths_cons, IH, fmap_cons, not_elem_of_cons.
    destruct (decide (p = Os.path_join folder n)) as [-> | Hne].
    + rewrite unlink_lookup_same. split; [intros [_ ?] | intros [[? _] _]]; done.
    + rewrite unlink_lookup_Reg by assumption. tauto.
Qed.


Lemma doomed_spec (w : world) folder days n :
  n ∈ doomed (nodes w) folder days (clock w) (Os.dir_names (nodes w) folder)
  <->
  n ∈ aged_files w folder days /\
  exists f, nodes w !! Os.path_join folder n = Some (Reg f) /\
            remove_error f = None.
Proof.
  unfold doomed, aged_files. rewrite !list_elem_of_filter.
  unfold removable, aged, file_at.
  destruct (nodes w !! Os.path_join folder n) as [[d | f] |].
  - split; [intros [[? ?] _] | intros [[? _] _]]; discriminate.
  - split.
    + intros [[Ha Hr] Hin]. apply bool_decide_eq_true in Hr. eauto.
    + intros [[Ha Hin] (f' & [= <-] & Hr)].
      repeat split; try assumption. by apply bool_decide_eq_true.
  - split; [intros [[? ?] _] | intros [[? _] _]]; discriminate.
Qed.

Lemma doomed_path folder days w n n' :
  Os.entry_name n = true ->
  n' ∈ doomed (nodes w) folder days (clock w) (Os.dir_names (nodes w) folder) ->
  Os.path_join folder n = Os.path_join folder n' -> n = n'.
Proof.
  intros Hn Hn' Heq.
  assert (Os.entry_name n' = true) as He.
  { apply doomed_spec in Hn' as [Ha _].
    by apply aged_files_spec in Ha as [? _]. }
  by apply (path_join_inj folder).
Qed.

(** A removed file is gone, every other file of the folder is as before. *)
Lemma removed_or_kept (w : world) folder days n :
  Os.entry_name n = true ->
  let D := doomed (nodes w) folder days (clock w)
                  (Os.dir_names (nodes w) folder) in
  (n ∈ D ->
   remove_paths folder (clock w) D (nodes w) !! Os.path_join folder n = None)
  /\
  (n ∉ D ->
   forall f,
     remove_paths folder (clock w) D (nodes w) !! Os.path_join folder n
     = Some (Reg f) <->
     nodes w !! Os.path_join folder n = Some (Reg f)).
Proof.
  intros Hn D. split; intros H.
  - apply remove_paths_lookup_None. left. by apply list_elem_of_fmap_2.
  - intros f. rewrite remove_paths_lookup_Reg.
    assert (Os.path_join folder n ∉ (Os.path_join folder <$> D)) as Hnot.
    { intros (n' & Heq & Hn')%list_elem_of_fmap. apply H.
      by rewrite (doomed_path folder days w n n' Hn Hn' Heq). }
    tauto.
Qed.

(* ===================================================================== *)
(** ** Confirmation, missing paths *)
(* ===================================================================== *)

(** C1 (as stated, refuted): the confirmation ["YES"] is not the string
    ["yes"], yet with it the handler removes the aged file [logs/a.log]. *)
Lemma delete_logs_upper_case_yes_deletes :
  "YES" <> "yes" /\
  nodes Sample.calm !! "logs/a.log" = Some (Reg Sample.a_log) /\
  nodes (snd (delete_logs "logs" 30 "YES" Sample.calm)) !! "logs/a.log"
  = None.
Proof. split; [discriminate |]. split; vm_compute; reflexivity. Qed.

(** C1 (amended): unless the confirmation, put in lower case, is ["yes"],
    the handler deletes nothing: it leaves the world as it was and returns
    the no-op message object with the folder and the days it was given. *)
Theorem delete_logs_needs_confirmation (folder : string) (days : Z)
    (confirm : string) (w : world) :
  PyStr.lower confirm <> "yes" ->
  delete_logs folder days confirm w =
    (inr (JObj [("message",
                 JStr "Deletion not performed. Use ?confirm=yes to proceed.");
                ("folder", JStr folder);
                ("days", JInt days)]), w) /\
  nodes (snd (delete_logs folder days confirm w)) = nodes w.
Proof.
  intros Hno. unfold delete_logs.
  rewrite bool_decide_eq_false_2 by assumption. cbn [negb]. split; reflexivity.
Qed.

(** The default confirmation ["no"] on the sample folder. *)
Lemma delete_logs_needs_confirmation_witness :
  PyStr.lower "no" <> "yes" /\
  nodes (snd (delete_logs "logs" 30 "no" Sample.calm)) = nodes Sample.calm.
Proof.
  split; [discriminate |].
  apply (delete_logs_needs_confirmation "logs" 30 "no" Sample.calm).
  discriminate.
Defined.

(** C6: when the folder (for the preview and for the confirmed deletion)
    or the file (for the summary) does not exist, the handler does not
    raise: it returns an object whose ["error"] field says which path was
    not found, and touches nothing. *)
Theorem missing_path_yields_error (p : string) (days : Z) (w : world) :
  nodes w !! p = None ->
  preview_logs p days w
  = (inr (JObj [("error", JStr ("Folder not found: " +:+ p))]), w) /\
  delete_logs p days "yes" w
  = (inr (JObj [("error", JStr ("Folder not found: " +:+ p))]), w) /\
  summarize_log p w
  = (inr (JObj [("error", JStr ("File not found: " +:+ p))]), w) /\
  forall msg, field "error" (JObj [("error", JStr msg)]) = Some (JStr msg).
Proof.
  intros Hp. repeat split.
  - by apply preview_logs_missing.
  - by apply delete_logs_missing.
  - unfold summarize_log. unfold bind at 1.
    rewrite path_exists_missing by assumption. reflexivity.
Qed.

(** No path [missing] in the sample world. *)
Lemma missing_path_yields_error_witness :
  nodes Sample.calm !! "missing" = None /\
  response_field "error" (fst (summarize_log "missing" Sample.calm))
  = Some (JStr "File not found: missing").
Proof.
  split; [reflexivity |].
  destruct (missing_path_yields_error "missing" 30 Sample.calm eq_refl)
    as (_ & _ & -> & _).
  reflexivity.
Defined.

(* ===================================================================== *)
(** ** Preview against deletion; failures; space freed *)
(* ===================================================================== *)

Lemma files_of_preview_entries m folder (l : list string) :
  omap entry_file
       (map (fun n => preview_entry n (size_at m folder n)) l) = l.
Proof. induction l as [| n l IH]; [reflexivity |]. cbn. by rewrite IH. Qed.


Lemma response_files_head k (l : list json) rest :
  response_files k (inr (JObj ((k, JArr l) :: rest))) = omap entry_file l.
Proof.
  unfold response_files, response_field, field. cbn [assoc].
  rewrite bool_decide_eq_true_2 by reflexivity. reflexivity.
Qed.

(** An existing path that is no directory to be listed makes [os.listdir]
    raise in both folder handlers. *)
Lemma listdir_fails (p : string) (w : world) :
  is_Some (nodes w !! p) -> is_dir (nodes w) p = false ->
  exists e, Os.listdir p w = (inl e, w).
Proof.
  unfold is_dir, Os.listdir. intros [nd Hp]. rewrite Hp.
  destruct nd as [d | f]; [| eauto].
  destruct (d_list_error d); [eauto | discriminate].
Qed.

Lemma preview_logs_raises folder days w :
  is_Some (nodes w !! folder) -> is_dir (nodes w) folder = false ->
  exists e, preview_logs folder days w = (inl e, w).
Proof.
  intros Hex Hdir. destruct (listdir_fails folder w Hex Hdir) as [e He].
  exists e. unfold preview_logs.
  unfold bind at 1. unfold Os.path_exists.
  rewrite bool_decide_eq_true_2 by assumption. cbn [negb].
  unfold bind at 1. unfold Os.time_time.
  unfold bind at 1. by rewrite He.
Qed.


(** The names that the preview lists. *)
Lemma preview_files folder days w :
  response_files "files_to_delete" (fst (preview_logs folder days w))
  = if is_dir (nodes w) folder then aged_files w folder days else [].
Proof.
  destruct (is_dir (nodes w) folder) eqn:Hdir.
  - rewrite preview_logs_run by assumption.
    cbn [fst]. rewrite response_files_head.
    apply files_of_preview_entries.
  - destruct (nodes w !! folder) as [nd |] eqn:Hf.
    + by destruct (preview_logs_raises folder days w) as [e ->].
    + by rewrite preview_logs_missing.
Qed.



(* ===================================================================== *)
(** ** Symbolic links *)
(* ===================================================================== *)

Section Simulation.

(** The links stay what they are while a handler runs over a folder that
    holds none of them; there the handler does what it does without
    links. *)
Variable L : gmap string Links.link.






















End Simulation.






(** C7: on a folder that exists and may be listed (a directory that
    [os.listdir] reads) the confirmed deletion always returns its
    report.  Every aged file has its entry in [deleted_files], in listing
    order: the bare name when the removal succeeded, the object
    [{file, error}] with the exception's message when it raised; and a
    failure on one file does not keep the removable files, before or
    after it, from being removed. *)
Theorem delete_logs_records_failures (folder : string) (days : Z)
    (w : world) :
  is_dir (nodes w) folder = true ->
  exists j w',
    delete_logs folder days "yes" w = (inr j, w') /\
    field "deleted_files" j
    = Some (JArr (map (deletion_entry (nodes w) folder)
                      (aged_files w folder days))) /\
    (forall n f,
       n ∈ aged_files w folder days ->
       nodes w !! Os.path_join folder n = Some (Reg f) ->
       match remove_error f with
       | Some msg =>
           deletion_entry (nodes w) folder n
           = JObj [("file", JStr n); ("error", JStr msg)] /\
           nodes w' !! Os.path_join folder n = Some (Reg f)
       | None =>
           deletion_entry (nodes w) folder n = JStr n /\
           nodes w' !! Os.path_join folder n = None
       end).
Proof.
  intros Hdir. do 2 eexists.
  split; [apply delete_logs_run; [reflexivity | assumption] |].
  split; [reflexivity |].
  intros n f Hin Hn.
  assert (Os.entry_name n = true) as He
    by (by apply aged_files_spec in Hin as [? _]).
  destruct (removed_or_kept w folder days n He) as [Hgone Hkept].
  rewrite set_nodes_nodes. unfold deletion_entry, file_at. rewrite Hn.
  destruct (remove_error f) as [msg |] eqn:Hr.
  - split; [reflexivity |]. apply Hkept; [| assumption].
    intros (_ & f' & Hf' & Hr')%doomed_spec. congruence.
  - split; [reflexivity |]. apply Hgone, doomed_spec. eauto.
Qed.

(** In the sample folder [b.log] cannot be removed; [a.log] before it and
    [d.log] after it are removed all the same. *)
Lemma delete_logs_records_failures_witness :
  is_dir (nodes Sample.calm) "logs" = true /\
  exists j w',
    delete_logs "logs" 30 "yes" Sample.calm = (inr j, w') /\
    field "deleted_files" j
    = Some (JArr [JStr "a.log";
                  JObj [("file", JStr "b.log");
                        ("error",
                         JStr "[Errno 13] Permission denied: 'logs/b.log'")];
                  JStr "d.log"]).
Proof.
  split; [reflexivity |].
  destruct (delete_logs_records_failures "logs" 30 Sample.calm eq_refl)
    as (j & w' & Hrun & Hfiles & _).
  exists j, w'. split; [exact Hrun |]. rewrite Hfiles.
  vm_compute. reflexivity.
Defined.




(* ===================================================================== *)
(** ** Summaries *)
(* ===================================================================== *)

(** The chain tests "error" first, then "warn", then "info". *)
Lemma classify_priority (line : string) :
  (classify line = Some LError <->
     PyStr.search_ignorecase "error" line = true) /\
  (classify line = Some LWarning <->
     PyStr.search_ignorecase "error" line = false /\
     PyStr.search_ignorecase "warn" line = true) /\
  (classify line = Some LInfo <->
     PyStr.search_ignorecase "error" line = false /\
     PyStr.search_ignorecase "warn" line = false /\
     PyStr.search_ignorecase "info" line = true) /\
  (classify line = None <->
     PyStr.search_ignorecase "error" line = false /\
     PyStr.search_ignorecase "warn" line = false /\
     PyStr.search_ignorecase "info" line = false).
Proof.
  unfold classify.
  destruct (PyStr.search_ignorecase "error" line),
           (PyStr.search_ignorecase "warn" line),
           (PyStr.search_ignorecase "info" line);
    repeat split; intros; try discriminate; try tauto;
    repeat match goal with H : _ /\ _ |- _ => destruct H end;
    discriminate.
Qed.

Lemma count_level_cons (l : option level) (line : string) lines :
  count_level l (line :: lines) =
  (if decide (classify line = l) then 1 else 0) + count_level l lines.
Proof.
  unfold count_level. rewrite filter_cons.
  case_decide; cbn [length]; lia.
Qed.

(** Every line falls in exactly one of the four classes. *)
Lemma count_level_partition (lines : list string) :
  count_level (Some LError) lines + count_level (Some LWarning) lines
  + count_level (Some LInfo) lines + count_level None lines
  = Z.of_nat (length lines).
Proof.
  induction lines as [| line lines IH]; [reflexivity |].
  rewrite !count_level_cons. cbn [length]. rewrite Nat2Z.inj_succ, <- IH.
  destruct (classify line) as [[| |] |]; repeat case_decide;
    try congruence; lia.
Qed.

Lemma count_level_nonneg l lines : 0 <= count_level l lines.
Proof. unfold count_level. lia. Qed.

Lemma summarize_loop (lines : list string) : forall s w,
  for_each lines summarize_step s w =
  (inr (Summary (errors s + count_level (Some LError) lines)
                (warnings s + count_level (Some LWarning) lines)
                (info s + count_level (Some LInfo) lines)
                (total_lines s + Z.of_nat (length lines))), w).
Proof.
  induction lines as [| line lines IH]; intros s w.
  - cbn. rewrite !Z.add_0_r. by destruct s.
  - cbn [for_each]. unfold bind at 1. unfold summarize_step at 1.
    cbv [ret]. rewrite IH, !count_level_cons. cbn [length].
    rewrite Nat2Z.inj_succ.
    destruct (classify line) as [[| |] |];
      cbn [errors warnings info total_lines];
      repeat case_decide; try congruence; do 2 f_equal; f_equal; lia.
Qed.

(** C3: for a regular file, the summary returned counts, among the lines
    that reading the file yields, those that match "error"; those that do
    not but match "warn"; those that match neither but match "info" (all
    without regard to case); and all of them as [total_lines].  A line is
    counted in at most one of the three, so their sum is at most
    [total_lines]; the lines counted nowhere make up the difference. *)
Theorem summarize_log_counts (file_path : string) (f : file) (w : world) :
  nodes w !! file_path = Some (Reg f) ->
  let lines := PyStr.text_lines (content f) in
  summarize_log file_path w =
    (inr (JObj [("errors", JInt (count_level (Some LError) lines));
                ("warnings", JInt (count_level (Some LWarning) lines));
                ("info", JInt (count_level (Some LInfo) lines));
                ("total_lines", JInt (Z.of_nat (length lines)))]), w) /\
  count_level (Some LError) lines + count_level (Some LWarning) lines
  + count_level (Some LInfo) lines <= Z.of_nat (length lines) /\
  count_level (Some LError) lines + count_level (Some LWarning) lines
  + count_level (Some LInfo) lines + count_level None lines
  = Z.of_nat (length lines) /\
  forall line,
    (classify line = Some LError <->
       PyStr.search_ignorecase "error" line = true) /\
    (classify line = Some LWarning <->
       PyStr.search_ignorecase "error" line = false /\
       PyStr.search_ignorecase "warn" line = true) /\
    (classify line = Some LInfo <->
       PyStr.search_ignorecase "error" line = false /\
       PyStr.search_ignorecase "warn" line = false /\
       PyStr.search_ignorecase "info" line = true).
Proof.
  intros Hf lines. split; [| split; [| split]].
  - unfold summarize_log. unfold bind at 1. unfold Os.path_exists.
    rewrite Hf, bool_decide_eq_true_2 by eauto. cbn [negb].
    unfold try_except, bind at 1. unfold Os.read_lines. rewrite Hf.
    unfold bind at 1. fold lines. rewrite summarize_loop. reflexivity.
  - pose proof (count_level_partition lines).
    pose proof (count_level_nonneg None lines). lia.
  - apply count_level_partition.
  - intros line. pose proof (classify_priority line). tauto.
Qed.

(** The sample [a.log] has four lines: one with "ERROR" (and "warning" and
    "info" too), one with "Warn", one with "information", one with none. *)
Lemma summarize_log_counts_witness :
  nodes Sample.calm !! "logs/a.log" = Some (Reg Sample.a_log) /\
  fst (summarize_log "logs/a.log" Sample.calm)
  = inr (JObj [("errors", JInt 1); ("warnings", JInt 1); ("info", JInt 1);
               ("total_lines", JInt 4)]).
Proof.
  split; [reflexivity |].
  rewrite (proj1 (summarize_log_counts "logs/a.log" Sample.a_log Sample.calm
                    eq_refl)).
  vm_compute. reflexivity.
Defined.

(* ===================================================================== *)
(** ** Further properties of the folder handlers *)
(* ===================================================================== *)




(** [x > n] goes down with [n]. *)
Lemma gt_int_antitone (x : float) (n1 n2 : Z) :
  n1 <= n2 -> PyFloat.gt_int x n2 = true -> PyFloat.gt_int x n1 = true.
Proof.
  intros Hle. unfold PyFloat.gt_int, PyFloat.compare_int.
  destruct (Prim2SF x) as [s | s | | s m e]; cbv beta iota zeta;
    try (destruct s; intros; assumption); try (intros; assumption).
  - destruct (0 ?= n2) eqn:H2; try discriminate. intros _.
    apply Z.compare_gt_iff in H2.
    rewrite (proj2 (Z.compare_gt_iff 0 n1)) by lia. reflexivity.
  - set (v := if s then Z.neg m else Z.pos m).
    destruct (0 <=? e).
    + destruct (v * 2 ^ e ?= n2) eqn:H2; try discriminate. intros _.
      apply Z.compare_gt_iff in H2.
      rewrite (proj2 (Z.compare_gt_iff (v * 2 ^ e) n1)) by lia. reflexivity.
    + destruct (v ?= n2 * 2 ^ (- e)) eqn:H2; try discriminate. intros _.
      apply Z.compare_gt_iff in H2.
      assert (0 <= 2 ^ (- e)) by (apply Z.pow_nonneg; lia).
      rewrite (proj2 (Z.compare_gt_iff v (n1 * 2 ^ (- e)))) by nia.
      reflexivity.
Qed.

(** X2: a longer retention never selects more.  With [days1 <= days2],
    every file that the preview lists for [days2] is listed for [days1]
    too, on the same world and folder. *)
Theorem preview_logs_antitone_in_days (folder : string) (days1 days2 : Z)
    (w : world) (n : string) :
  days1 <= days2 ->
  n ∈ response_files "files_to_delete" (fst (preview_logs folder days2 w)) ->
  n ∈ response_files "files_to_delete" (fst (preview_logs folder days1 w)).
Proof.
  intros Hle. rewrite !preview_files.
  destruct (is_dir (nodes w) folder); [| done].
  rewrite !aged_files_spec. intros (He & f & Hf & Hold).
  split; [assumption |]. exists f. split; [assumption |].
  unfold older in *. eapply gt_int_antitone; [| exact Hold]. lia.
Qed.

(** [d.log] is listed for 100 days, hence for 30. *)
Lemma preview_logs_antitone_in_days_witness :
  "d.log" ∈ response_files "files_to_delete"
              (fst (preview_logs "logs" 30 Sample.calm)).
Proof.
  apply (preview_logs_antitone_in_days "logs" 30 100 Sample.calm "d.log");
    [lia |].
  vm_compute. apply list_elem_of_In. simpl. tauto.
Defined.

(* ===================================================================== *)
(** ** A second run *)
(* ===================================================================== *)












(* ===================================================================== *)
(** ** Further properties of the summary *)
(* ===================================================================== *)


Lemma lower_append (a b : string) :
  PyStr.lower (a +:+ b) = PyStr.lower a +:+ PyStr.lower b.
Proof.
  induction a as [| c a IH]; [reflexivity |].
  rewrite append_cons. cbn [PyStr.lower]. by rewrite IH, append_cons.
Qed.

Lemma match_here_spec (pat s : string) :
  PyStr.match_here pat s = true <->
  exists mid post, s = mid +:+ post /\ PyStr.lower mid = PyStr.lower pat.
Proof.
  revert s. induction pat as [| p pat IH]; intros s.
  - split; [intros _; by exists "", s | by destruct s].
  - destruct s as [| c s]; cbn [PyStr.match_here].
    + split; [discriminate |]. intros ([| ? ?] & post & Hs & Hl); discriminate.
    + rewrite andb_true_iff, bool_decide_eq_true, IH. split.
      * intros (Hpc & mid & post & -> & Hl).
        exists (String c mid), post. split; [reflexivity |].
        cbn [PyStr.lower]. congruence.
      * intros ([| c' mid] & post & Hs & Hl); [discriminate |].
        rewrite append_cons in Hs. injection Hs as <- ->.
        cbn [PyStr.lower] in Hl. injection Hl as Hc Hl. eauto.
Qed.

(** The search succeeds exactly when the line has a run of characters
    that equals the pattern once both are lowered. *)
Lemma search_ignorecase_spec (pat s : string) :
  PyStr.search_ignorecase pat s = true <->
  exists pre mid post,
    s = pre +:+ mid +:+ post /\ PyStr.lower mid = PyStr.lower pat.
Proof.
  induction s as [| c s IH].
  - change (PyStr.search_ignorecase pat "")
      with (PyStr.match_here pat "" || false).
    rewrite orb_false_r, match_here_spec. split.
    + intros (mid & post & Hs & Hl). by exists "", mid, post.
    + intros ([| ? ?] & mid & post & Hs & Hl).
      * exists mid, post. split; [exact Hs | exact Hl].
      * rewrite append_cons in Hs. discriminate Hs.
  - change (PyStr.search_ignorecase pat (String c s))
      with (PyStr.match_here pat (String c s)
            || PyStr.search_ignorecase pat s).
    rewrite orb_true_iff, match_here_spec, IH. split.
    + intros [(mid & post & Hs & Hl) | (pre & mid & post & -> & Hl)].
      * by exists "", mid, post.
      * by exists (String c pre), mid, post.
    + intros ([| c' pre] & mid & post & Hs & Hl).
      * left. exists mid, post. split; [exact Hs | exact Hl].
      * right. rewrite append_cons in Hs. injection Hs as <- ->. eauto.
Qed.

(** X9: a line counts as an error line exactly when it holds, anywhere,
    the five letters of "error" in any mix of cases; it counts as a
    warning line exactly when it holds no such run but one for "warn". *)
Theorem classify_by_substring (line : string) :
  (classify line = Some LError <->
     exists pre mid post,
       line = pre +:+ mid +:+ post /\ PyStr.lower mid = "error") /\
  (classify line = Some LWarning <->
     ~ (exists pre mid post,
          line = pre +:+ mid +:+ post /\ PyStr.lower mid = "error") /\
     exists pre mid post,
       line = pre +:+ mid +:+ post /\ PyStr.lower mid = "warn").
Proof.
  destruct (classify_priority line) as (He & Hw & _).
  rewrite He, Hw, <- !not_true_iff_false.
  rewrite (search_ignorecase_spec "error" line),
          (search_ignorecase_spec "warn" line).
  split; reflexivity.
Qed.

Lemma summarize_log_run file_path f w :
  nodes w !! file_path = Some (Reg f) ->
  summarize_log file_path w =
  (inr (summary_response
          (Summary (count_level (Some LError) (PyStr.text_lines (content f)))
                   (count_level (Some LWarning)
                                (PyStr.text_lines (content f)))
                   (count_level (Some LInfo) (PyStr.text_lines (content f)))
                   (Z.of_nat (length (PyStr.text_lines (content f)))))), w).
Proof.
  intros Hf. unfold summarize_log. unfold bind at 1. unfold Os.path_exists.
  rewrite Hf, bool_decide_eq_true_2 by eauto. cbn [negb].
  unfold try_except, bind at 1. unfold Os.read_lines. rewrite Hf.
  unfold bind at 1. rewrite summarize_loop. reflexivity.
Qed.

Lemma lines_from_length (s : string) : forall cur,
  StrOps.has_cr s = false ->
  length (PyStr.lines_from cur s) =
  (StrOps.count_newlines s +
   if match s with
      | EmptyString => negb (bool_decide (cur = []))
      | _ => StrOps.unterminated s
      end
   then 1 else 0)%nat.
Proof.
  induction s as [| c r IH]; intros cur Hcr.
  - by destruct cur.
  - cbn [StrOps.has_cr] in Hcr. apply orb_false_iff in Hcr as [Hc Hr].
    apply bool_decide_eq_false in Hc.
    cbn [PyStr.lines_from StrOps.count_newlines StrOps.unterminated].
    case_bool_decide as Hnl.
    + cbn [length negb]. rewrite IH by assumption.
      destruct r; reflexivity.
    + rewrite bool_decide_eq_false_2 by assumption.
      rewrite IH by assumption. destruct r; reflexivity.
Qed.

(** X10: for a file without carriage returns, [total_lines] is the number
    of newline characters of its text, plus one when the text does not end
    with a newline (and is not empty); an empty file has no line. *)
Theorem total_lines_counts_newlines (file_path : string) (f : file)
    (w : world) :
  nodes w !! file_path = Some (Reg f) ->
  StrOps.has_cr (content f) = false ->
  response_field "total_lines" (fst (summarize_log file_path w))
  = Some (JInt (Z.of_nat (StrOps.count_newlines (content f))
                + if StrOps.unterminated (content f) then 1 else 0)).
Proof.
  intros Hf Hcr. rewrite (summarize_log_run _ f) by assumption.
  cbn [fst response_field summary_response field assoc total_lines].
  rewrite !bool_decide_eq_false_2 by discriminate.
  rewrite bool_decide_eq_true_2 by reflexivity.
  unfold PyStr.text_lines. rewrite lines_from_length by assumption.
  destruct (content f) as [| c r]; [reflexivity |].
  destruct (StrOps.unterminated (String c r)); do 2 f_equal; lia.
Qed.

(** The sample [a.log] has three newlines and an unterminated last line. *)
Lemma total_lines_counts_newlines_witness :
  nodes Sample.calm !! "logs/a.log" = Some (Reg Sample.a_log) /\
  response_field "total_lines" (fst (summarize_log "logs/a.log" Sample.calm))
  = Some (JInt 4).
Proof.
  split; [reflexivity |].
  rewrite (total_lines_counts_newlines "logs/a.log" Sample.a_log Sample.calm
             eq_refl eq_refl).
  reflexivity.
Defined.

(* ===================================================================== *)
(** ** Events *)
(* ===================================================================== *)

Lemma syslog_step_run level acc l w :
  syslog_step level acc l w =
  (inr (if passes level l then acc ++ [JStr (StrOps.strip l)] else acc), w).
Proof.
  unfold syslog_step, passes.
  destruct (bool_decide (level = "error")
            && negb (StrOps.contains "error" (PyStr.lower l)));
    [reflexivity |].
  destruct (bool_decide (level = "warning")
            && negb (StrOps.contains "warn" (PyStr.lower l)));
    reflexivity.
Qed.

Lemma syslog_loop level w (ls : list string) : forall acc,
  for_each ls (syslog_step level) acc w =
  (inr (acc ++ map (fun l => JStr (StrOps.strip l))
                   (filter (fun l => passes level l = true) ls)), w).
Proof.
  induction ls as [| l ls IH]; intros acc.
  - cbn. by rewrite app_nil_r.
  - cbn [for_each]. unfold bind at 1.
    rewrite syslog_step_run, IH, filter_cons.
    destruct (passes level l).
    + rewrite decide_True by reflexivity. cbn [map].
      by rewrite <- app_assoc.
    + rewrite decide_False by discriminate. reflexivity.
Qed.

Lemma windows_step_run level acc ev w :
  windows_step level acc ev w =
  (inr (if admits level ev then acc ++ [event_json ev] else acc), w).
Proof.
  unfold windows_step, admits.
  destruct (bool_decide (level = "error")
            && negb (bool_decide (EventType ev = 1)));
    [reflexivity |].
  destruct (bool_decide (level = "warning")
            && negb (bool_decide (EventType ev = 2)));
    reflexivity.
Qed.

Lemma windows_loop level w (evs : list event_record) : forall acc,
  for_each evs (windows_step level) acc w =
  (inr (acc ++ map event_json
                   (filter (fun ev => admits level ev = true) evs)), w).
Proof.
  induction evs as [| ev evs IH]; intros acc.
  - cbn. by rewrite app_nil_r.
  - cbn [for_each]. unfold bind at 1.
    rewrite windows_step_run, IH, filter_cons.
    destruct (admits level ev).
    + rewrite decide_True by reflexivity. cbn [map].
      by rewrite <- app_assoc.
    + rewrite decide_False by discriminate. reflexivity.
Qed.


Lemma last_n_all {A} (n : nat) (l : list A) :
  (length l <= n)%nat -> StrOps.last_n n l = l.
Proof.
  intros H. unfold StrOps.last_n.
  replace (length l - n)%nat with O by lia. reflexivity.
Qed.

Lemma filter_length_le {A} (P : A -> Prop) `{forall x, Decision (P x)}
    (l : list A) :
  (length (filter P l) <= length l)%nat.
Proof.
  induction l as [| x l IH]; [reflexivity |].
  rewrite filter_cons. case_decide; cbn [length]; lia.
Qed.

Section EventsFacts.

Variable import_win32evtlog : io unit.
Variable read_event_log : io (list event_record).
Variable is_import_error : exn -> bool.

Local Abbreviation get_events' :=
  (get_events import_win32evtlog read_event_log is_import_error).

(** On a Linux host the handler reads the syslog (or [messages]). *)
Lemma get_events_linux_run level w f :
  platform_system w = "Linux" ->
  nodes w !! syslog_path w = Some (Reg f) ->
  get_events' "linux" level w =
  (inr (events_response
          (map (fun l => JStr (StrOps.strip l))
               (filter (fun l => passes level l = true)
                       (StrOps.last_n 200
                          (PyStr.text_lines (content f)))))), w).
Proof.
  intros Hsys Hf. unfold get_events, syslog_path in *.
  unfold bind at 1. unfold read. rewrite Hsys.
  rewrite (bool_decide_eq_false_2 ("linux" = "windows")) by discriminate.
  rewrite (bool_decide_eq_true_2 ("linux" = "linux")) by reflexivity.
  rewrite (bool_decide_eq_true_2 ("Linux" = "Linux")) by reflexivity.
  cbn [andb].
  unfold bind at 1. unfold Os.path_exists.
  destruct (bool_decide (is_Some (nodes w !! "/var/log/syslog")));
    unfold try_except, bind at 1; unfold Os.read_lines; rewrite Hf;
    unfold bind at 1; rewrite syslog_loop; reflexivity.
Qed.


End EventsFacts.






Lemma prefix_lower (pat s : string) :
  PyStr.lower pat = pat ->
  String.prefix pat (PyStr.lower s) = PyStr.match_here pat s.
Proof.
  revert s. induction pat as [| p pat IH]; intros s Hpat; [by destruct s |].
  cbn [PyStr.lower] in Hpat. injection Hpat as Hp Hpat.
  destruct s as [| c s]; [reflexivity |].
  cbn [PyStr.lower String.prefix PyStr.match_here]. rewrite Hp, IH by done.
  destruct (ascii_dec p (PyStr.lower_char c)) as [Heq | Hne].
  - by rewrite bool_decide_eq_true_2.
  - by rewrite bool_decide_eq_false_2.
Qed.

(** [pat in s.lower()] is the search without case, for a lower-case
    pattern. *)
Lemma contains_lower (pat s : string) :
  PyStr.lower pat = pat ->
  StrOps.contains pat (PyStr.lower s) = PyStr.search_ignorecase pat s.
Proof.
  intros Hpat. induction s as [| c s IH].
  - cbn [PyStr.lower StrOps.contains PyStr.search_ignorecase].
    by rewrite <- (prefix_lower pat "").
  - change (StrOps.contains pat (PyStr.lower (String c s)))
      with (String.prefix pat (PyStr.lower (String c s))
            || StrOps.contains pat (PyStr.lower s)).
    change (PyStr.search_ignorecase pat (String c s))
      with (PyStr.match_here pat (String c s)
            || PyStr.search_ignorecase pat s).
    by rewrite prefix_lower, IH.
Qed.

Lemma passes_error (l : string) :
  passes "error" l = PyStr.search_ignorecase "error" l.
Proof.
  unfold passes.
  rewrite (bool_decide_eq_true_2 ("error" = "error")) by reflexivity.
  rewrite (bool_decide_eq_false_2 ("error" = "warning")) by discriminate.
  rewrite (contains_lower "error") by reflexivity.
  destruct (PyStr.search_ignorecase "error" l); reflexivity.
Qed.

Lemma passes_warning (l : string) :
  passes "warning" l = PyStr.search_ignorecase "warn" l.
Proof.
  unfold passes.
  rewrite (bool_decide_eq_false_2 ("warning" = "error")) by discriminate.
  rewrite (bool_decide_eq_true_2 ("warning" = "warning")) by reflexivity.
  rewrite (contains_lower "warn") by reflexivity.
  destruct (PyStr.search_ignorecase "warn" l); reflexivity.
Qed.


Lemma filter_length_mono {A} (P Q : A -> Prop)
    `{forall x, Decision (P x)} `{forall x, Decision (Q x)} (l : list A) :
  (forall x, P x -> Q x) ->
  (length (filter P l) <= length (filter Q l))%nat.
Proof.
  intros HPQ. induction l as [| x l IH]; [reflexivity |].
  rewrite !filter_cons. destruct (decide (P x)) as [HP | HP].
  - rewrite decide_True by auto. cbn [length]. lia.
  - case_decide; cbn [length]; lia.
Qed.



Lemma error_lines_filter (ls : list string) :
  filter (fun l => passes "error" l = true) ls
  = filter (fun l => classify l = Some LError) ls.
Proof.
  apply list_filter_iff. intros l. rewrite passes_error.
  by destruct (classify_priority l) as (-> & _).
Qed.

(** X12: the event handler and the summary agree on errors and differ on
    warnings.  For a log of at most 200 lines on a Linux host, the number
    of events at level "error" is the summary's [errors]; the number of
    events at level "warning" is at least the summary's [warnings] (it
    also counts the lines that hold both "warn" and "error", which the
    summary counts as errors only). *)
Theorem error_events_match_summary
    (import_win32evtlog : io unit)
    (read_event_log : io (list event_record))
    (is_import_error : exn -> bool)
    (w : world) (f : file) :
  platform_system w = "Linux" ->
  nodes w !! syslog_path w = Some (Reg f) ->
  (length (PyStr.text_lines (content f)) <= 200)%nat ->
  exists errs warns n,
    response_field "events"
      (fst (get_events import_win32evtlog read_event_log is_import_error
                       "linux" "error" w)) = Some (JArr errs) /\
    response_field "events"
      (fst (get_events import_win32evtlog read_event_log is_import_error
                       "linux" "warning" w)) = Some (JArr warns) /\
    response_field "errors" (fst (summarize_log (syslog_path w) w))
    = Some (JInt (Z.of_nat (length errs))) /\
    response_field "warnings" (fst (summarize_log (syslog_path w) w))
    = Some (JInt n) /\
    n <= Z.of_nat (length warns).
Proof.
  intros Hsys Hf Hlen.
  rewrite !(get_events_linux_run _ _ _ _ w f) by assumption.
  rewrite (summarize_log_run _ f) by assumption.
  rewrite last_n_all by assumption.
  do 3 eexists.
  split; [reflexivity |]. split; [reflexivity |].
  cbn [fst response_field summary_response field assoc errors warnings].
  rewrite (bool_decide_eq_true_2 ("errors" = "errors")) by reflexivity.
  rewrite (bool_decide_eq_false_2 ("errors" = "warnings")) by discriminate.
  rewrite (bool_decide_eq_true_2 ("warnings" = "warnings")) by reflexivity.
  split; [| split; [reflexivity |]].
  - rewrite length_map, error_lines_filter. reflexivity.
  - rewrite length_map. unfold count_level. apply inj_le.
    apply filter_length_mono. intros l Hl. rewrite passes_warning.
    by destruct (classify_priority l) as (_ & Hw & _); apply Hw in Hl as [_ ?].
Qed.

(** The sample syslog: one error line, one warning line. *)
Lemma error_events_match_summary_witness :
  platform_system SampleLinux.host = "Linux" /\
  response_field "errors"
    (fst (summarize_log (syslog_path SampleLinux.host) SampleLinux.host))
  = Some (JInt 1).
Proof.
  split; [reflexivity |].
  destruct (error_events_match_summary
              SampleLinux.no_import SampleLinux.no_events
              SampleLinux.import_error SampleLinux.host SampleLinux.syslog)
    as (errs & warns & n & Herrs & _ & Hsum & _).
  - reflexivity.
  - reflexivity.
  - vm_compute. lia.
  - rewrite Hsum. vm_compute in Herrs. injection Herrs as <-. reflexivity.
Defined.

(** X13: the event handler never raises, whatever [pywin32] does: it
    always returns an object.  Off the Windows branch it leaves the world
    as it was; and when the asked source does not fit the host (neither
    "windows" on Windows nor "linux" on Linux) the object is the error
    ["<source> logs not available on <system>"]. *)
Theorem get_events_never_raises
    (import_win32evtlog : io unit)
    (read_event_log : io (list event_record))
    (is_import_error : exn -> bool)
    (source level : string) (w : world) :
  exists j w',
    get_events import_win32evtlog read_event_log is_import_error
               source level w = (inr j, w') /\
    (~ (source = "windows" /\ platform_system w = "Windows") -> w' = w) /\
    (~ (source = "windows" /\ platform_system w = "Windows") ->
     ~ (source = "linux" /\ platform_system w = "Linux") ->
     j = JObj [("error",
                JStr (source +:+ " logs not available on "
                      +:+ platform_system w))]).
Proof.
  unfold get_events. unfold bind at 1. unfold read.
  destruct (bool_decide (source = "windows")
            && bool_decide (platform_system w = "Windows")) eqn:Hwin.
  - apply andb_true_iff in Hwin as [H1 H2].
    apply bool_decide_eq_true in H1, H2.
    unfold try_except, bind at 1.
    destruct (import_win32evtlog w) as [[e | []] w1].
    { destruct (is_import_error e); do 2 eexists;
        (split; [reflexivity | split; intros Hn; [| intros _];
                                 destruct Hn; by split]). }
    unfold bind at 1.
    destruct (read_event_log w1) as [[e | batch] w2].
    { destruct (is_import_error e); do 2 eexists;
        (split; [reflexivity | split; intros Hn; [| intros _];
                                 destruct Hn; by split]). }
    unfold bind at 1. rewrite windows_loop.
    do 2 eexists.
    split; [reflexivity | split; intros Hn; [| intros _];
                            destruct Hn; by split].
  - assert (~ (source = "windows" /\ platform_system w = "Windows")) as Hnw.
    { intros [H1 H2]. rewrite !bool_decide_eq_true_2 in Hwin by assumption.
      discriminate. }
    destruct (bool_decide (source = "linux")
              && bool_decide (platform_system w = "Linux")) eqn:Hlin.
    + apply andb_true_iff in Hlin as [H1 H2].
      apply bool_decide_eq_true in H1, H2.
      unfold bind at 1. unfold Os.path_exists.
      set (path := if bool_decide _ then _ else _).
      unfold try_except, bind at 1. unfold Os.read_lines.
      destruct (nodes w !! path) as [[d | f] |];
        try (unfold bind at 1; rewrite syslog_loop);
        do 2 eexists;
        (split; [reflexivity | split; [reflexivity |]]);
        intros _ Hn; destruct Hn; by split.
    + do 2 eexists. split; [reflexivity |]. split; reflexivity.
Qed.

(** X14: on a Windows host, once [win32evtlog] is imported and has handed
    over a batch, the handler returns at most 50 events, taken in order
    from the first 50 of the batch: those of type 1 at level "error",
    those of type 2 at level "warning", all of them at any other level. *)
Theorem get_events_windows_filters_batch
    (import_win32evtlog : io unit)
    (read_event_log : io (list event_record))
    (is_import_error : exn -> bool)
    (level : string) (w w1 w2 : world) (batch : list event_record) :
  platform_system w = "Windows" ->
  import_win32evtlog w = (inr tt, w1) ->
  read_event_log w1 = (inr batch, w2) ->
  exists events,
    get_events import_win32evtlog read_event_log is_import_error
               "windows" level w
    = (inr (JObj [("events",
                   JArr (map (fun ev =>
                                JObj [("source", JStr (SourceName ev));
                                      ("event_id", JInt (EventID ev));
                                      ("event_type", JInt (EventType ev))])
                             events))]), w2) /\
    (length events <= 50)%nat /\
    events `sublist_of` take 50 batch /\
    (forall ev,
       ev ∈ events <->
       ev ∈ take 50 batch /\
       (level = "error" -> EventType ev = 1) /\
       (level = "warning" -> EventType ev = 2)).
Proof.
  intros Hsys Himp Hread.
  exists (filter (fun ev => admits level ev = true) (take 50 batch)).
  split; [| split; [| split]].
  - unfold get_events. unfold bind at 1. unfold read. rewrite Hsys.
    rewrite !bool_decide_eq_true_2 by reflexivity. cbn [andb].
    unfold try_except, bind at 1. rewrite Himp.
    unfold bind at 1. rewrite Hread.
    unfold bind at 1. rewrite windows_loop. reflexivity.
  - etransitivity; [apply filter_length_le |].
    rewrite length_take. lia.
  - apply sublist_filter.
  - intros ev. rewrite list_elem_of_filter. unfold admits.
    rewrite andb_true_iff, !negb_true_iff, !andb_false_iff,
            !negb_false_iff, !bool_decide_eq_false, !bool_decide_eq_true.
    split.
    + intros [[[H1 | H1] [H2 | H2]] Hin]; repeat split; try assumption;
        intros; try congruence.
    + intros (Hin & H1 & H2). split; [| assumption].
      destruct (decide (level = "error")), (decide (level = "warning"));
        auto.
Qed.

(** The sample batch at level "error". *)
Lemma get_events_windows_filters_batch_witness :
  platform_system SampleWindows.host = "Windows" /\
  exists events,
    response_field "events"
      (fst (get_events SampleWindows.import_ok SampleWindows.read_batch
                       SampleLinux.import_error "windows" "error"
                       SampleWindows.host))
    = Some (JArr (map event_json events)) /\
    (length events <= 50)%nat.
Proof.
  split; [reflexivity |].
  destruct (get_events_windows_filters_batch
              SampleWindows.import_ok SampleWindows.read_batch
              SampleLinux.import_error "error" SampleWindows.host
              SampleWindows.host SampleWindows.host SampleWindows.batch
              eq_refl eq_refl eq_refl)
    as (events & Hrun & Hlen & _).
  exists events. rewrite Hrun. split; [reflexivity | exact Hlen].
Defined.

(* ===================================================================== *)
(** ** Graph users *)
(* ===================================================================== *)

Lemma authority_truthy (tenant : option string) :
  truthy (AUTHORITY tenant) = truthy tenant.
Proof.
  unfold AUTHORITY. destruct (truthy tenant) eqn:Ht; [| reflexivity].
  cbn [truthy]. rewrite append_cons.
  by rewrite bool_decide_eq_false_2.
Qed.

Lemma user_step_dict users u w :
  user_step users (PDict u) w = (inr (users ++ [user_entry u]), w).
Proof.
  unfold user_step, user_entry, bind, py_get, ret.
  destruct (dict_lookup "displayName" u),
           (dict_lookup "userPrincipalName" u); reflexivity.
Qed.

Lemma user_step_other users v w :
  is_dict v = false ->
  user_step users v w =
  (inl (Exn "AttributeError"
            ("'" +:+ type_name v +:+ "' object has no attribute 'get'")), w).
Proof. destruct v; (discriminate || reflexivity). Qed.

Lemma user_loop (ds : list (list (string * pyobj))) w : forall users,
  for_each (map PDict ds) user_step users w
  = (inr (users ++ map user_entry ds), w).
Proof.
  induction ds as [| u ds IH]; intros users.
  - cbn. by rewrite app_nil_r.
  - cbn [map for_each]. unfold bind at 1.
    rewrite user_step_dict, IH. by rewrite <- app_assoc.
Qed.

Lemma user_loop_stops (ds : list (list (string * pyobj))) v post w :
  is_dict v = false ->
  forall users,
    for_each (map PDict ds ++ v :: post) user_step users w
    = (inl (Exn "AttributeError"
                ("'" +:+ type_name v +:+ "' object has no attribute 'get'")),
       w).
Proof.
  intros Hv. induction ds as [| u ds IH]; intros users.
  - cbn [map app for_each]. unfold bind at 1.
    by rewrite user_step_other.
  - cbn [map app for_each]. unfold bind at 1.
    rewrite user_step_dict. apply IH.
Qed.

(** X15: without credentials there is no call.  When [TENANT_ID],
    [CLIENT_ID] or [CLIENT_SECRET] is unset or empty, the handler returns
    the "Failed to acquire token" error object and leaves the world as it
    was, whatever the token service and the directory service would have
    done. *)
Theorem list_users_needs_credentials
    (TENANT_ID CLIENT_ID CLIENT_SECRET : option string)
    (acquire_access_token :
       string -> string -> string -> list string -> io (option string))
    (requests_get : string -> list (string * string) -> io response)
    (w : world) :
  truthy TENANT_ID = false \/ truthy CLIENT_ID = false
  \/ truthy CLIENT_SECRET = false ->
  list_users_graph TENANT_ID CLIENT_ID CLIENT_SECRET
                   acquire_access_token requests_get w
  = (inr (PDict
            [("error",
              PStr ("Failed to acquire token. Make sure TENANT_ID, "
                    +:+ "CLIENT_ID, CLIENT_SECRET are set as environment "
                    +:+ "variables."))]), w).
Proof.
  intros H. unfold list_users_graph, get_access_token.
  rewrite authority_truthy.
  assert (negb (truthy CLIENT_ID) || negb (truthy CLIENT_SECRET)
          || negb (truthy TENANT_ID) = true) as ->.
  { destruct H as [-> | [-> | ->]];
      destruct (truthy CLIENT_ID), (truthy CLIENT_SECRET);
      try destruct (truthy TENANT_ID); reflexivity. }
  reflexivity.
Qed.

(** An empty client secret counts as none. *)
Lemma list_users_needs_credentials_witness :
  exists j,
    list_users_graph (Some "tenant") (Some "client") (Some "")
                     SampleGraph.token_service SampleGraph.graph_ok
                     Sample.calm
    = (inr j, Sample.calm).
Proof.
  eexists.
  apply (list_users_needs_credentials (Some "tenant") (Some "client")
           (Some "") SampleGraph.token_service SampleGraph.graph_ok
           Sample.calm).
  right. right. reflexivity.
Defined.

Section GraphFacts.

(** A configured service that obtains a token and gets an answer with
    status 200 whose body parses to a dict. *)
Variables (tenant client secret token : string).
Variable acquire_access_token :
  string -> string -> string -> list string -> io (option string).
Variable requests_get : string -> list (string * string) -> io response.
Variables (w w1 w2 w3 : world) (resp : response).
Variable body : list (string * pyobj).

Hypothesis tenant_set : tenant <> "".
Hypothesis client_set : client <> "".
Hypothesis secret_set : secret <> "".
Hypothesis token_set : token <> "".
Hypothesis acquired :
  acquire_access_token client
    ("https://login.microsoftonline.com/" +:+ tenant) secret
    ["https://graph.microsoft.com/.default"] w
  = (inr (Some token), w1).
Hypothesis answered :
  requests_get "https://graph.microsoft.com/v1.0/users"
               [("Authorization", "Bearer " +:+ token)] w1
  = (inr resp, w2).
Hypothesis status_ok : status_code resp = 200.
Hypothesis parsed : json_body resp w2 = (inr (PDict body), w3).

Local Abbreviation handler :=
  (list_users_graph (Some tenant) (Some client) (Some secret)
                    acquire_access_token requests_get).

Lemma list_users_run :
  handler w =
  match dict_lookup "value" body with
  | Some value =>
      bind (py_iter value)
           (fun items =>
              bind (for_each items user_step [])
                   (fun users => ret (PDict [("users", PList users)]))) w3
  | None => (inr (PDict [("users", PList [])]), w3)
  end.
Proof.
  unfold list_users_graph, get_access_token.
  rewrite authority_truthy. cbn [truthy].
  rewrite !bool_decide_eq_false_2 by assumption. cbn [negb orb].
  unfold bind at 1. unfold AUTHORITY. cbn [truthy].
  rewrite bool_decide_eq_false_2 by assumption. cbn [negb default].
  unfold id, SCOPE. rewrite acquired. cbn [truthy].
  rewrite bool_decide_eq_false_2 by assumption. cbn [negb].
  unfold bind at 1. cbn [default from_option]. unfold id.
  rewrite answered, bool_decide_eq_true_2 by assumption.
  unfold bind at 1. rewrite parsed.
  unfold bind at 1. unfold py_get at 1.
  destruct (dict_lookup "value" body); reflexivity.
Qed.

(** X16: when the body's ["value"] is a list of objects, the handler
    returns [{"users": [...]}] with one [{name, email}] entry per object,
    in order, taken from its [displayName] and [userPrincipalName], [None]
    standing for a missing one; when the body has no ["value"], the list
    is empty. *)
Theorem list_users_maps_directory_objects :
  (forall ds : list (list (string * pyobj)),
     dict_lookup "value" body = Some (PList (map PDict ds)) ->
     handler w =
     (inr (PDict
        [("users",
          PList (map (fun u =>
                        PDict [("name",
                                default PNone
                                        (dict_lookup "displayName" u));
                               ("email",
                                default PNone
                                        (dict_lookup "userPrincipalName" u))])
                     ds))]), w3)) /\
  (dict_lookup "value" body = None ->
   handler w = (inr (PDict [("users", PList [])]), w3)).
Proof.
  split.
  - intros ds Hv. rewrite list_users_run, Hv.
    unfold bind at 1. unfold py_iter, ret at 1.
    unfold bind at 1. rewrite user_loop. reflexivity.
  - intros Hv. by rewrite list_users_run, Hv.
Qed.

(** X17: an entry of ["value"] that is not an object makes the handler
    raise: the entries before it are read, then [u.get] fails with an
    [AttributeError] that nothing catches. *)
Theorem list_users_raises_on_non_object
    (ds : list (list (string * pyobj))) (v : pyobj) (post : list pyobj) :
  dict_lookup "value" body = Some (PList (map PDict ds ++ v :: post)) ->
  is_dict v = false ->
  handler w =
  (inl (Exn "AttributeError"
            ("'" +:+ type_name v +:+ "' object has no attribute 'get'")),
   w3).
Proof.
  intros Hv Hnd. rewrite list_users_run, Hv.
  unfold bind at 1. unfold py_iter, ret at 1.
  unfold bind at 1. by rewrite user_loop_stops.
Qed.

End GraphFacts.

(** Two directory objects, the second without a principal name. *)
Lemma list_users_maps_directory_objects_witness :
  list_users_graph (Some "tenant") (Some "client") (Some "secret")
                   SampleGraph.token_service SampleGraph.graph_ok Sample.calm
  = (inr (PDict
       [("users",
         PList [PDict [("name", PStr "Ada");
                       ("email", PStr "ada@example.org")];
                PDict [("name", PStr "Guest"); ("email", PNone)]])]),
     Sample.calm).
Proof.
  apply (proj1 (list_users_maps_directory_objects
                  "tenant" "client" "secret" "tok"
                  SampleGraph.token_service SampleGraph.graph_ok
                  Sample.calm Sample.calm Sample.calm Sample.calm
                  (Response 200 "" (ret SampleGraph.body))
                  [("@odata.context", PStr "users");
                   ("value", PList [SampleGraph.ada; SampleGraph.guest])]
                  ltac:(discriminate) ltac:(discriminate)
                  ltac:(discriminate) ltac:(discriminate)
                  eq_refl eq_refl eq_refl eq_refl)
               [SampleGraph.ada_entries; SampleGraph.guest_entries]).
  reflexivity.
Defined.

(** A string among the directory objects. *)
Lemma list_users_raises_on_non_object_witness :
  fst (list_users_graph (Some "tenant") (Some "client") (Some "secret")
                        SampleGraph.token_service SampleGraph.graph_bad
                        Sample.calm)
  = inl (Exn "AttributeError" "'str' object has no attribute 'get'").
Proof.
  rewrite (list_users_raises_on_non_object
             "tenant" "client" "secret" "tok"
             SampleGraph.token_service SampleGraph.graph_bad
             Sample.calm Sample.calm Sample.calm Sample.calm
             (Response 200 "" (ret SampleGraph.bad_body))
             [("value", PList [SampleGraph.ada; PStr "x"])]
             ltac:(discriminate) ltac:(discriminate)
             ltac:(discriminate) ltac:(discriminate)
             eq_refl eq_refl eq_refl eq_refl
             [SampleGraph.ada_entries] (PStr "x") []
             eq_refl eq_refl).
  reflexivity.
Defined.
